(** * BSDatePicker: the dual-calendar date engine of [bs-date-picker.tsx]

    A shallow embedding of the component's state and of its pure helpers
    ([formatDate], [formatGregorianDate], [formatNepaliDate],
    [getOrdinalSuffix], [toNepaliNumeral], [handleDateSelect],
    [handleMonthChange], the four range labellers and the two state
    initialisers), followed by the properties proved about them.

    Conventions of the embedding.
    - A JavaScript number that holds an integer is a [Z]; [%] is [Z.rem]
      (the sign follows the dividend) and [Math.floor (a / b)] is [Z.div].
      The integers a number holds exactly are the safe ones
      ([Js.isSafeInteger]); years, months and days are far inside them.
    - A JavaScript string is its UTF-8 text; its [length] is counted in
      UTF-16 code units.  Every character the component handles lies in the
      Basic Multilingual Plane, where one character is one code unit.
    - A [Date] is its local calendar day, counted from 1 January 1970: the
      component builds dates from local fields and reads them with the
      local getters only, so the time of day is dropped.  The time zone
      enters where text is read as a date, which ECMAScript does in UTC:
      [JsDate.parseDateOnly] takes the zone's offset.  Time values stay
      inside the range ECMAScript can represent, so [TimeClip] never
      produces an Invalid Date; the Invalid Date of the string constructor
      is kept, as [None].
    - [NepaliDate] comes from the package [nepali-date-converter], which is
      not part of the repository: its constructors and its conversion are
      the fields of [Library], and every definition and theorem is stated
      for an arbitrary library.  Its constructors throw outside the years
      the package has tables for: the initialisers, where the component
      can fail, carry that as [Throws]; the handlers are total functions,
      describing the calls that return.  [Sample] is one concrete library,
      used to evaluate the code on concrete dates. *)

From Stdlib Require Import ZArith List Bool Lia String Ascii DecimalString
  DecimalZ.
Import ListNotations.
Open Scope string_scope.
Open Scope Z_scope.

(* ================================================================= *)
(** ** JavaScript values used by the component *)

Module Js.

(** [s.length], in UTF-16 code units: the bytes of the UTF-8 text that do
    not continue a character. *)
Definition continues (c : ascii) : bool :=
  let n := N_of_ascii c in (128 <=? n)%N && (n <? 192)%N.

Fixpoint length (s : string) : nat :=
  match s with
  | EmptyString => 0%nat
  | String c r => ((if continues c then 0 else 1) + length r)%nat
  end.

Fixpoint repeat (s : string) (n : nat) : string :=
  match n with
  | O => ""
  | S k => s ++ repeat s k
  end.

(** [s.padStart(targetLength, padString)] for a filler of one code unit,
    which is what every call site passes. *)
Definition padStart (s : string) (targetLength : nat) (padString : string) : string :=
  repeat padString (targetLength - length s) ++ s.

(** [Number.isSafeInteger(n)]: the integers a number holds exactly, up to
    2^53 - 1 either way. *)
Definition isSafeInteger (n : Z) : bool := Z.abs n <=? 9007199254740991.

(** [n.toString()] of a safe integer: its decimal digits, after a minus
    sign when it is negative.  Past the safe integers a number is no
    longer any integer, and from 1e21 its text is in exponent form: the
    definition is not meant there. *)
Definition toString (n : Z) : string := NilZero.string_of_int (Z.to_int n).

(** [s.split("")] of ASCII text: its characters. *)
Definition split (s : string) : list ascii := list_ascii_of_string s.

(** [parseInt(c)] of a one-character string; [None] is [NaN]. *)
Definition parseInt (c : ascii) : option Z :=
  let n := N_of_ascii c in
  if (48 <=? n)%N && (n <=? 57)%N then Some (Z.of_N n - 48) else None.

(** [a[i]]: [None] is [undefined], also for a negative index. *)
Definition index {A : Type} (a : list A) (i : Z) : option A :=
  if i <? 0 then None else nth_error a (Z.to_nat i).

(** [a[i]] where the index itself may be [NaN]. *)
Definition indexNum {A : Type} (a : list A) (i : option Z) : option A :=
  match i with
  | Some k => index a k
  | None => None
  end.

(** [a.join("")]: an [undefined] element contributes nothing. *)
Fixpoint join (a : list (option string)) : string :=
  match a with
  | [] => ""
  | Some s :: r => s ++ join r
  | None :: r => join r
  end.

(** [a || b] on values that are a string or [undefined]: [undefined] and
    the empty string are falsy. *)
Definition falsy (a : option string) : bool :=
  match a with
  | None => true
  | Some s => String.eqb s ""
  end.

Definition or (a b : option string) : option string :=
  if falsy a then b else a.

(** A value interpolated into a template literal. *)
Definition str (a : option string) : string :=
  match a with
  | Some s => s
  | None => "undefined"
  end.

(** [o[key]] on an object literal with string keys, for a key that is not
    a property every object inherits (such as "toString"). *)
Fixpoint get (o : list (string * string)) (key : string) : option string :=
  match o with
  | [] => None
  | (k, v) :: r => if String.eqb k key then Some v else get r key
  end.

(** No byte of the text is ASCII. *)
Fixpoint noAscii (s : string) : bool :=
  match s with
  | EmptyString => true
  | String c r => (128 <=? N_of_ascii c)%N && noAscii r
  end.

(** No character of the text is an ASCII digit. *)
Fixpoint noDigit (s : string) : bool :=
  match s with
  | EmptyString => true
  | String c r =>
      negb ((48 <=? N_of_ascii c)%N && (N_of_ascii c <=? 57)%N) && noDigit r
  end.

(** The property names every object literal inherits from
    [Object.prototype]; [get] does not model a lookup of one of them. *)
Definition inherited : list string :=
  ["constructor"; "hasOwnProperty"; "isPrototypeOf"; "propertyIsEnumerable";
   "toLocaleString"; "toString"; "valueOf"; "__proto__";
   "__defineGetter__"; "__defineSetter__"; "__lookupGetter__";
   "__lookupSetter__"].

End Js.

(* ================================================================= *)
(** ** [Date], after ECMAScript's day arithmetic (ECMA-262, 21.4.1) *)

Module JsDate.

(** The local time value, in whole days since 1 January 1970. *)
Record Date : Type := ofDay { dayNumber : Z }.

Definition DaysInYear (y : Z) : Z :=
  if negb (y mod 4 =? 0) then 365
  else if negb (y mod 100 =? 0) then 366
  else if negb (y mod 400 =? 0) then 365
  else 366.

Definition DayFromYear (y : Z) : Z :=
  365 * (y - 1970) + (y - 1969) / 4 - (y - 1901) / 100 + (y - 1601) / 400.

(** The largest [y] with [DayFromYear y <= n]: a first guess from the mean
    length of a year, off by at most one. *)
Definition YearFromDay (n : Z) : Z :=
  let y0 := 1970 + (400 * n) / 146097 in
  if DayFromYear (y0 + 1) <=? n then y0 + 1
  else if DayFromYear y0 <=? n then y0
  else y0 - 1.

Definition leapDay (y : Z) : Z := DaysInYear y - 365.

Definition DayWithinYear (n : Z) : Z := n - DayFromYear (YearFromDay n).

Definition MonthFromDay (n : Z) : Z :=
  let d := DayWithinYear n in
  let L := leapDay (YearFromDay n) in
  if d <? 31 then 0
  else if d <? 59 + L then 1
  else if d <? 90 + L then 2
  else if d <? 120 + L then 3
  else if d <? 151 + L then 4
  else if d <? 181 + L then 5
  else if d <? 212 + L then 6
  else if d <? 243 + L then 7
  else if d <? 273 + L then 8
  else if d <? 304 + L then 9
  else if d <? 334 + L then 10
  else 11.

(** Day within the year on which month [mn] (0-11) starts. *)
Definition monthStart (L mn : Z) : Z :=
  match mn with
  | 0 => 0
  | 1 => 31
  | 2 => 59 + L
  | 3 => 90 + L
  | 4 => 120 + L
  | 5 => 151 + L
  | 6 => 181 + L
  | 7 => 212 + L
  | 8 => 243 + L
  | 9 => 273 + L
  | 10 => 304 + L
  | _ => 334 + L
  end.

Definition DateFromDay (n : Z) : Z :=
  DayWithinYear n - monthStart (leapDay (YearFromDay n)) (MonthFromDay n) + 1.

(** [MakeDay(year, month, date)]: months beyond 0-11 carry into the year,
    days beyond the month run on into the neighbouring months. *)
Definition MakeDay (year month date : Z) : Z :=
  let ym := year + month / 12 in
  let mn := month mod 12 in
  DayFromYear ym + monthStart (leapDay ym) mn + date - 1.

(** The constructor's reading of a year argument: 0-99 mean 1900-1999. *)
Definition MakeFullYear (y : Z) : Z :=
  if (0 <=? y) && (y <=? 99) then 1900 + y else y.

(** [new Date(year, month, date)]. *)
Definition newDate (year month date : Z) : Date :=
  ofDay (MakeDay (MakeFullYear year) month date).

Definition getFullYear (d : Date) : Z := YearFromDay (dayNumber d).
Definition getMonth (d : Date) : Z := MonthFromDay (dayNumber d).
Definition getDate (d : Date) : Z := DateFromDay (dayNumber d).

(** The Gregorian rule, written out: the length of month [m] (0-11) of
    year [y]. *)
Definition isLeapYear (y : Z) : bool :=
  (y mod 4 =? 0) && (negb (y mod 100 =? 0) || (y mod 400 =? 0)).

Definition daysInMonth (y m : Z) : Z :=
  match m with
  | 1 => if isLeapYear y then 29 else 28
  | 3 | 5 | 8 | 10 => 30
  | _ => 31
  end.

(** [toLocaleDateString("en-US", ...)] as the component asks for it. *)
Definition shortMonths : list string :=
  ["Jan"; "Feb"; "Mar"; "Apr"; "May"; "Jun";
   "Jul"; "Aug"; "Sep"; "Oct"; "Nov"; "Dec"].

Definition longMonths : list string :=
  ["January"; "February"; "March"; "April"; "May"; "June"; "July";
   "August"; "September"; "October"; "November"; "December"].

(** [{ month: "short" }] *)
Definition localeShortMonth (d : Date) : string :=
  Js.str (Js.index shortMonths (getMonth d)).

(** [{ month: "long" }] *)
Definition localeLongMonth (d : Date) : string :=
  Js.str (Js.index longMonths (getMonth d)).

(** [{ month: "short" | "long", day: "2-digit", year: "numeric" }]: the
    locale, not the order of the options, fixes the layout. *)
Definition localeMonthDayYear (monthText : string) (d : Date) : string :=
  monthText ++ " " ++ Js.padStart (Js.toString (getDate d)) 2 "0" ++ ", "
    ++ Js.toString (getFullYear d).

(** [getDay()]: ECMAScript's [WeekDay], 0 for Sunday; 1 January 1970 was
    a Thursday. *)
Definition getDay (d : Date) : Z := (dayNumber d + 4) mod 7.

(** [new Date(text)] for the date-only form "YYYY-MM-DD" of ECMAScript's
    date-time string format: four, two and two digits, month 01-12, day
    01-31; a day past the end of its month runs on into the next, as V8
    reads it.  The text is read as midnight UTC, and the getters answer
    in local time, [offset] minutes ahead of UTC: the same day at UTC and
    east of it, the day before west of it.  [None]: the text is not of
    this form, and what the engine makes of it is not modelled here. *)
Definition parseDateOnly (offset : Z) (text : string) : option Date :=
  match Js.split text with
  | [y1; y2; y3; y4; h1; m1; m2; h2; d1; d2] =>
      match Js.parseInt y1, Js.parseInt y2, Js.parseInt y3, Js.parseInt y4,
            Js.parseInt m1, Js.parseInt m2, Js.parseInt d1, Js.parseInt d2 with
      | Some a, Some b, Some c, Some d, Some e, Some f, Some g, Some h =>
          let year := 1000 * a + 100 * b + 10 * c + d in
          let month := 10 * e + f in
          let day := 10 * g + h in
          if (N_of_ascii h1 =? 45)%N && (N_of_ascii h2 =? 45)%N
             && (1 <=? month) && (month <=? 12)
             && (1 <=? day) && (day <=? 31)
          then Some (ofDay (MakeDay year (month - 1) day + offset / 1440))
          else None
      | _, _, _, _, _, _, _, _ => None
      end
  | _ => None
  end.

End JsDate.

Export JsDate(Date).

(* ================================================================= *)
(** ** [NepaliDate] and the library that builds it *)

Module Nepali.

(** A [NepaliDate] object, by what its getters return: [getYear()],
    [getMonth()] (0-11) and [getDate()]. *)
Record NepaliDate : Type := BS { getYear : Z; getMonth : Z; getDate : Z }.

(** The package [nepali-date-converter] and the host's clock and date
    parser, as the component uses them. *)
Record Library : Type := {
  (** [new NepaliDate(year, month, date)] *)
  fromYMD : Z -> Z -> Z -> NepaliDate;
  (** [new NepaliDate(date)] for a valid [Date], when it returns *)
  fromDate : Date -> NepaliDate;
  (** whether [new NepaliDate(date)] returns for a valid [Date]: it throws
      on a day outside the years the package has tables for *)
  acceptsDate : Date -> bool;
  (** [new NepaliDate(date)] for an Invalid Date; [None]: it throws *)
  fromInvalidDate : option NepaliDate;
  (** [new NepaliDate(text)]; [None]: it throws *)
  fromString : string -> option NepaliDate;
  (** [nepaliDate.toJsDate()] *)
  toJsDate : NepaliDate -> Date;
  (** [NepaliDate.now()]; [None]: it throws, the clock being outside the
      package's years *)
  nowNepali : option NepaliDate;
  (** [new Date()] *)
  nowDate : Date;
  (** [new Date(text)]; [None]: the Invalid Date *)
  parseDate : string -> option Date
}.

End Nepali.

Export Nepali(NepaliDate, Library).

(* ================================================================= *)
(** ** The component *)

(** [DateFormat]: the ten templates. *)
Definition DateFormat : list string :=
  ["YYYY/MM/DD"; "DD/MM/YYYY"; "MM/DD/YYYY"; "YYYY-MM-DD"; "MM-DD-YYYY";
   "DD-MM-YYYY"; "MMM DD, YYYY"; "DD MMM YYYY"; "MMMM DD, YYYY";
   "DDth MMMM, YYYY"].

(** [language: "np" | "en"] *)
Inductive Language : Type := np | en.

(** [NepaliDate | Date], the type of [selectedDate] when it is not
    [null]. *)
Inductive DateValue : Type :=
| ofNepali (d : NepaliDate)
| ofJs (d : Date).

(** [date.getMonth()] and [date.getDate()] on the union: each class
    answers with its own calendar's field. *)
Definition getMonth (date : DateValue) : Z :=
  match date with
  | ofNepali d => Nepali.getMonth d
  | ofJs d => JsDate.getMonth d
  end.

Definition getDate (date : DateValue) : Z :=
  match date with
  | ofNepali d => Nepali.getDate d
  | ofJs d => JsDate.getDate d
  end.

(** [currentMonth: { nepali: NepaliDate; gregorian: Date }] *)
Record CurrentMonth : Type := { nepali : NepaliDate; gregorian : Date }.

(** The three [useState] cells. *)
Record State : Type := {
  selectedDate : option DateValue;
  currentMonth : CurrentMonth;
  isOpen : bool
}.

(** The argument of [onDateChange]. *)
Record Change : Type := { english : string; nepaliText : string }.

(** What the state initialisers come to: an exception leaves them, or they
    finish holding an Invalid Date, or they finish with valid dates. *)
Inductive Init : Type :=
| Throws
| HoldsInvalidDate
| Ready (st : State).

Definition MONTH_NAMES (lang : Language) : list string :=
  match lang with
  | en =>
      ["January"; "February"; "March"; "April"; "May"; "June"; "July";
       "August"; "September"; "October"; "November"; "December"]
  | np =>
      ["बैशाख"; "जेठ"; "असार"; "सावन"; "भदौ"; "असोज";
       "कार्तिक"; "मंसिर"; "पौष"; "माघ"; "फागुन"; "चैत"]
  end.

Definition NEPALI_NUMERALS : list string :=
  ["०"; "१"; "२"; "३"; "४"; "५"; "६"; "७"; "८"; "९"].

(** [toNepaliNumeral] (lines 358-363). *)
Definition toNepaliNumeral (num : Z) : string :=
  Js.join
    (map (fun digit => Js.indexNum NEPALI_NUMERALS (Js.parseInt digit))
         (Js.split (Js.toString num))).

(** [getOrdinalSuffix] (lines 258-262). *)
Definition getOrdinalSuffix (day : Z) : string :=
  let suffixes := ["th"; "st"; "nd"; "rd"] in
  let v := Z.rem day 100 in
  Js.str
    (Js.or (Js.index suffixes (Z.rem (v - 20) 10))
       (Js.or (Js.index suffixes v) (Js.index suffixes 0))).

(** [formatGregorianDate] (lines 192-227). *)
Definition formatGregorianDate (date : Date) (format : string) : string :=
  let month := Js.padStart (Js.toString (JsDate.getMonth date + 1)) 2 "0" in
  let day := Js.padStart (Js.toString (JsDate.getDate date)) 2 "0" in
  let year := Js.toString (JsDate.getFullYear date) in
  let formats :=
    [ ("MM/DD/YYYY", month ++ "/" ++ day ++ "/" ++ year);
      ("DD/MM/YYYY", day ++ "/" ++ month ++ "/" ++ year);
      ("YYYY/MM/DD", year ++ "/" ++ month ++ "/" ++ day);
      ("YYYY-MM-DD", year ++ "-" ++ month ++ "-" ++ day);
      ("MM-DD-YYYY", month ++ "-" ++ day ++ "-" ++ year);
      ("DD-MM-YYYY", day ++ "-" ++ month ++ "-" ++ year);
      ("MMM DD, YYYY",
        JsDate.localeMonthDayYear (JsDate.localeShortMonth date) date);
      ("DD MMM YYYY",
        JsDate.localeMonthDayYear (JsDate.localeShortMonth date) date);
      ("MMMM DD, YYYY",
        JsDate.localeMonthDayYear (JsDate.localeLongMonth date) date);
      ("DDth MMMM, YYYY",
        Js.toString (JsDate.getDate date)
          ++ getOrdinalSuffix (JsDate.getDate date) ++ " "
          ++ JsDate.localeLongMonth date ++ ", " ++ year) ] in
  Js.str (Js.or (Js.get formats format) (Js.get formats "YYYY-MM-DD")).

(** [formatNepaliDate] (lines 229-256). *)
Definition formatNepaliDate (year month day : Z) (format : string) : string :=
  let nepaliYear := Js.padStart (toNepaliNumeral year) 2 "०" in
  let nepaliMonth := Js.padStart (toNepaliNumeral month) 2 "०" in
  let nepaliDay := Js.padStart (toNepaliNumeral day) 2 "०" in
  let monthName := Js.str (Js.index (MONTH_NAMES np) month) in
  let ordinalDay := nepaliDay ++ getOrdinalSuffix day in
  let options :=
    [ ("YYYY/MM/DD", nepaliYear ++ "/" ++ nepaliMonth ++ "/" ++ nepaliDay);
      ("DD/MM/YYYY", nepaliDay ++ "/" ++ nepaliMonth ++ "/" ++ nepaliYear);
      ("MM/DD/YYYY", nepaliMonth ++ "/" ++ nepaliDay ++ "/" ++ nepaliYear);
      ("YYYY-MM-DD", nepaliYear ++ "-" ++ nepaliMonth ++ "-" ++ nepaliDay);
      ("MM-DD-YYYY", nepaliMonth ++ "-" ++ nepaliDay ++ "-" ++ nepaliYear);
      ("DD-MM-YYYY", nepaliDay ++ "-" ++ nepaliMonth ++ "-" ++ nepaliYear);
      ("MMM DD, YYYY", monthName ++ " " ++ nepaliDay ++ ", " ++ nepaliYear);
      ("DD MMM YYYY", nepaliDay ++ " " ++ monthName ++ " " ++ nepaliYear);
      ("MMMM DD, YYYY", monthName ++ " " ++ nepaliDay ++ ", " ++ nepaliYear);
      ("DDth MMMM, YYYY", ordinalDay ++ " " ++ monthName ++ ", " ++ nepaliYear) ] in
  Js.str (Js.or (Js.get options format) (Js.get options "YYYY-MM-DD")).

Section Component.

Variable lib : Library.
Variable language : Language.
Variable format : string.

(** [formatDate] (lines 164-190); [None] is [null]. *)
Definition formatDate (date : option DateValue) (lang : Language)
    (format : string) : string :=
  match date with
  | None => ""
  | Some date =>
      match lang with
      | en =>
          let jsDate :=
            match date with
            | ofJs d => d
            | ofNepali d => Nepali.toJsDate lib d
            end in
          formatGregorianDate jsDate format
      | np =>
          let nepaliYear :=
            match date with
            | ofNepali d => Nepali.getYear d
            | ofJs d => Nepali.getYear (Nepali.fromDate lib d)
            end in
          let nepaliMonth := getMonth date in
          let nepaliDay := getDate date in
          formatNepaliDate nepaliYear nepaliMonth nepaliDay format
      end
  end.

(** The two state initialisers (lines 93-122), for a [defaultValue] that
    is a string or absent.  The second one builds
    [new NepaliDate(defaultValue)] or [NepaliDate.now()] in both languages,
    and in language [en] converts the [Date] it holds as well; each of
    these constructors can throw. *)
Definition init (defaultValue : option string) : Init :=
  if negb (Js.falsy defaultValue) then
    let value := Js.str defaultValue in
    match language with
    | np =>
        match Nepali.fromString lib value with
        | None => Throws
        | Some nepaliDate =>
            Ready {| selectedDate := Some (ofNepali nepaliDate);
                     currentMonth :=
                       {| nepali := nepaliDate;
                          gregorian := Nepali.toJsDate lib nepaliDate |};
                     isOpen := false |}
        end
    | en =>
        match Nepali.fromString lib value with
        | None => Throws
        | Some _ =>
            match Nepali.parseDate lib value with
            | None =>
                match Nepali.fromInvalidDate lib with
                | None => Throws
                | Some _ => HoldsInvalidDate
                end
            | Some gregorianDate =>
                if Nepali.acceptsDate lib gregorianDate then
                  Ready {| selectedDate := Some (ofJs gregorianDate);
                           currentMonth :=
                             {| nepali := Nepali.fromDate lib gregorianDate;
                                gregorian := gregorianDate |};
                           isOpen := false |}
                else Throws
            end
        end
    end
  else
    match Nepali.nowNepali lib with
    | None => Throws
    | Some nowNepali =>
        let nowGregorian := Nepali.nowDate lib in
        match language with
        | np =>
            Ready {| selectedDate := None;
                     currentMonth :=
                       {| nepali := nowNepali;
                          gregorian := Nepali.toJsDate lib nowNepali |};
                     isOpen := false |}
        | en =>
            if Nepali.acceptsDate lib nowGregorian then
              Ready {| selectedDate := None;
                       currentMonth :=
                         {| nepali := Nepali.fromDate lib nowGregorian;
                            gregorian := nowGregorian |};
                       isOpen := false |}
            else Throws
        end
    end.

(** [handleDateSelect(day)] (lines 264-287): the new state and what
    [onDateChange] receives when the caller passed one. *)
Definition handleDateSelect (st : State) (day : Z) : State * Change :=
  let currentMonth := currentMonth st in
  let newNepaliDate :=
    Nepali.fromYMD lib
      (Nepali.getYear (nepali currentMonth))
      (Nepali.getMonth (nepali currentMonth))
      day in
  let newGregorianDate :=
    JsDate.newDate
      (JsDate.getFullYear (gregorian currentMonth))
      (JsDate.getMonth (gregorian currentMonth))
      day in
  ({| selectedDate :=
        Some (match language with
              | np => ofNepali newNepaliDate
              | en => ofJs newGregorianDate
              end);
      currentMonth := currentMonth;
      isOpen := false |},
   {| english := formatDate (Some (ofJs newGregorianDate)) en format;
      nepaliText := formatDate (Some (ofNepali newNepaliDate)) np format |}).

(** [currentDay] of [handleMonthChange] (lines 304-309): in either
    language, [selectedDate.getDate()], or 1 when nothing is selected. *)
Definition currentDay (st : State) : Z :=
  match selectedDate st with
  | Some date => getDate date
  | None => 1
  end.

(** [newNepaliYear] and [newNepaliMonth] of [handleMonthChange] (lines
    292-301), from the year and month of [prevMonth.nepali]. *)
Definition newNepaliYearMonth (year month increment : Z) : Z * Z :=
  let newNepaliYear := year in
  let newNepaliMonth := month + increment in
  if 11 <? newNepaliMonth then
    (newNepaliYear + newNepaliMonth / 12, Z.rem newNepaliMonth 12)
  else if newNepaliMonth <? 0 then
    (newNepaliYear + newNepaliMonth / 12,
     Z.rem (Z.rem newNepaliMonth 12 + 12) 12)
  else (newNepaliYear, newNepaliMonth).

(** [handleMonthChange(increment)] (lines 289-356): the state after the
    updater passed to [setCurrentMonth] and its [setSelectedDate]. *)
Definition handleMonthChange (st : State) (increment : Z) : State :=
  let prevMonth := currentMonth st in
  let '(newNepaliYear, newNepaliMonth) :=
    newNepaliYearMonth
      (Nepali.getYear (nepali prevMonth))
      (Nepali.getMonth (nepali prevMonth))
      increment in
  let currentDay := currentDay st in
  let maxNepaliDay :=
    Nepali.getDate (Nepali.fromYMD lib newNepaliYear (newNepaliMonth + 1) 0) in
  let newGregorianDate :=
    JsDate.newDate
      (JsDate.getFullYear (gregorian prevMonth))
      (JsDate.getMonth (gregorian prevMonth) + increment)
      1 in
  let maxGregorianDay :=
    JsDate.getDate
      (JsDate.newDate
         (JsDate.getFullYear newGregorianDate)
         (JsDate.getMonth newGregorianDate + 1)
         0) in
  let adjustedNepaliDay := Z.min currentDay maxNepaliDay in
  let adjustedGregorianDay := Z.min currentDay maxGregorianDay in
  let updatedNepaliDate :=
    Nepali.fromYMD lib newNepaliYear newNepaliMonth adjustedNepaliDay in
  let updatedGregorianDate :=
    JsDate.newDate
      (JsDate.getFullYear newGregorianDate)
      (JsDate.getMonth newGregorianDate)
      adjustedGregorianDay in
  {| selectedDate :=
       Some (match language with
             | np => ofNepali updatedNepaliDate
             | en => ofJs updatedGregorianDate
             end);
     currentMonth :=
       {| nepali := updatedNepaliDate; gregorian := updatedGregorianDate |};
     isOpen := isOpen st |}.

(** The four range labellers (lines 365-441). *)
Definition getGregorianMonthRange (nepaliMonth : NepaliDate) : string :=
  let firstDay :=
    Nepali.fromYMD lib (Nepali.getYear nepaliMonth) (Nepali.getMonth nepaliMonth) 1 in
  let lastDay :=
    Nepali.fromYMD lib (Nepali.getYear nepaliMonth) (Nepali.getMonth nepaliMonth + 1) 0 in
  let firstGregorianMonth := JsDate.localeShortMonth (Nepali.toJsDate lib firstDay) in
  let lastGregorianMonth := JsDate.localeShortMonth (Nepali.toJsDate lib lastDay) in
  if String.eqb firstGregorianMonth lastGregorianMonth
  then firstGregorianMonth
  else firstGregorianMonth ++ "/" ++ lastGregorianMonth.

Definition getGregorianYearRange (nepaliMonth : NepaliDate) : string :=
  let firstDay :=
    Nepali.fromYMD lib (Nepali.getYear nepaliMonth) (Nepali.getMonth nepaliMonth) 1 in
  let lastDay :=
    Nepali.fromYMD lib (Nepali.getYear nepaliMonth) (Nepali.getMonth nepaliMonth + 1) 0 in
  let firstGregorianYear := JsDate.getFullYear (Nepali.toJsDate lib firstDay) in
  let lastGregorianYear := JsDate.getFullYear (Nepali.toJsDate lib lastDay) in
  if firstGregorianYear =? lastGregorianYear
  then Js.toString firstGregorianYear
  else Js.toString firstGregorianYear ++ "-" ++ Js.toString lastGregorianYear.

(** [getBS()] keeps the fields of the object, so [firstDay.month] is the
    month of the date just built. *)
Definition getNepaliMonthRange (date : NepaliDate) : string :=
  let firstDay :=
    Nepali.fromYMD lib (Nepali.getYear date) (Nepali.getMonth date) 1 in
  let lastDay :=
    Nepali.fromYMD lib (Nepali.getYear date) (Nepali.getMonth date + 2) 0 in
  let firstNepaliMonth := Nepali.getMonth firstDay in
  let lastNepaliMonth := Nepali.getMonth lastDay in
  if firstNepaliMonth =? lastNepaliMonth
  then Js.str (Js.index (MONTH_NAMES np) firstNepaliMonth)
  else Js.str (Js.index (MONTH_NAMES np) firstNepaliMonth) ++ "/"
         ++ Js.str (Js.index (MONTH_NAMES np) lastNepaliMonth).

Definition getNepaliYearRange (date : NepaliDate) : string :=
  let firstDay :=
    Nepali.fromYMD lib (Nepali.getYear date) (Nepali.getMonth date) 1 in
  let lastDay :=
    Nepali.fromYMD lib (Nepali.getYear date) (Nepali.getMonth date + 2) 0 in
  let firstNepaliYear := Nepali.getYear firstDay in
  let lastNepaliYear := Nepali.getYear lastDay in
  if firstNepaliYear =? lastNepaliYear
  then toNepaliNumeral firstNepaliYear
  else toNepaliNumeral firstNepaliYear ++ "-" ++ toNepaliNumeral lastNepaliYear.

(** The small line of the header (lines 500-517): the other calendar's
    months and years. *)
Definition headerRange (st : State) : string :=
  match language with
  | np =>
      getGregorianMonthRange (nepali (currentMonth st)) ++ " "
        ++ getGregorianYearRange (nepali (currentMonth st))
  | en =>
      getNepaliMonthRange (nepali (currentMonth st)) ++ " "
        ++ getNepaliYearRange (nepali (currentMonth st))
  end.

(** The [value] of the read-only input (lines 449-451). *)
Definition inputValue (st : State) : string :=
  match selectedDate st with
  | Some date => formatDate (Some date) language format
  | None => ""
  end.

(** The day grid (lines 563-595): how many day buttons the displayed month
    gets, and the two dates computed for button [day], of which the
    secondary calendar's feeds the small label on the button. *)
Definition gridLength (st : State) : Z :=
  match language with
  | np =>
      Nepali.getDate
        (Nepali.fromYMD lib
           (Nepali.getYear (nepali (currentMonth st)))
           (Nepali.getMonth (nepali (currentMonth st)) + 1)
           0)
  | en =>
      JsDate.getDate
        (JsDate.newDate
           (JsDate.getFullYear (gregorian (currentMonth st)))
           (JsDate.getMonth (gregorian (currentMonth st)) + 1)
           0)
  end.

Definition gridDates (st : State) (day : Z) : NepaliDate * Date :=
  match language with
  | np =>
      let nepaliDate :=
        Nepali.fromYMD lib
          (Nepali.getYear (nepali (currentMonth st)))
          (Nepali.getMonth (nepali (currentMonth st)))
          day in
      (nepaliDate, Nepali.toJsDate lib nepaliDate)
  | en =>
      let usDate :=
        JsDate.newDate
          (JsDate.getFullYear (gregorian (currentMonth st)))
          (JsDate.getMonth (gregorian (currentMonth st)))
          day in
      (Nepali.fromDate lib usDate, usDate)
  end.

(** The large line of the header (lines 493-513): the displayed month and
    year in the primary calendar. *)
Definition headerTitle (st : State) : string :=
  match language with
  | np =>
      Js.str (Js.index (MONTH_NAMES np)
                (Nepali.getMonth (nepali (currentMonth st))))
        ++ " " ++ toNepaliNumeral (Nepali.getYear (nepali (currentMonth st)))
  | en =>
      Js.str (Js.index (MONTH_NAMES en)
                (JsDate.getMonth (gregorian (currentMonth st))))
        ++ " " ++ Js.toString (JsDate.getFullYear (gregorian (currentMonth st)))
  end.

(** The empty cells before day 1 (lines 546-561): the weekday of the first
    day of the displayed month.  [nepaliGetDay] is the library's
    [nepaliDate.getDay()]. *)
Definition gridOffset (nepaliGetDay : NepaliDate -> Z) (st : State) : Z :=
  match language with
  | np =>
      nepaliGetDay
        (Nepali.fromYMD lib
           (Nepali.getYear (nepali (currentMonth st)))
           (Nepali.getMonth (nepali (currentMonth st)))
           1)
  | en =>
      JsDate.getDay
        (JsDate.newDate
           (JsDate.getFullYear (gregorian (currentMonth st)))
           (JsDate.getMonth (gregorian (currentMonth st)))
           1)
  end.

(** Whether button [day] is drawn as selected (line 602):
    [selectedDate?.getDate() === day]. *)
Definition highlighted (st : State) (day : Z) : bool :=
  match selectedDate st with
  | Some date => getDate date =? day
  | None => false
  end.

(** [setIsOpen], which the popover calls when it opens or closes. *)
Definition setIsOpen (st : State) (open : bool) : State :=
  {| selectedDate := selectedDate st;
     currentMonth := currentMonth st;
     isOpen := open |}.

End Component.

(* ================================================================= *)
(** ** The range label as the specification words it *)

(** The specification's [monthNameRange] for an AD anchor, to be compared
    with [getNepaliMonthRange]: take the first and the last day of the
    anchor's own month, convert both to BS, name the two months. *)
Definition specNepaliMonthRange (lib : Library) (anchor : Date) : string :=
  let year := JsDate.getFullYear anchor in
  let month := JsDate.getMonth anchor in
  let first := Nepali.fromDate lib (JsDate.newDate year month 1) in
  let last :=
    Nepali.fromDate lib
      (JsDate.newDate year month (JsDate.daysInMonth year month)) in
  let firstName := Js.str (Js.index (MONTH_NAMES np) (Nepali.getMonth first)) in
  let lastName := Js.str (Js.index (MONTH_NAMES np) (Nepali.getMonth last)) in
  if String.eqb firstName lastName then firstName
  else firstName ++ "/" ++ lastName.

(** The same for a BS anchor, to be compared with
    [getGregorianMonthRange]; the month's length is the one the day grid
    uses. *)
Definition specGregorianMonthRange (lib : Library) (anchor : NepaliDate) : string :=
  let year := Nepali.getYear anchor in
  let month := Nepali.getMonth anchor in
  let length := Nepali.getDate (Nepali.fromYMD lib year (month + 1) 0) in
  let first := Nepali.toJsDate lib (Nepali.fromYMD lib year month 1) in
  let last := Nepali.toJsDate lib (Nepali.fromYMD lib year month length) in
  let firstName := JsDate.localeShortMonth first in
  let lastName := JsDate.localeShortMonth last in
  if String.eqb firstName lastName then firstName
  else firstName ++ "/" ++ lastName.

(* ================================================================= *)
(** ** Reading a state *)

(** The year, month (0-11) and day a date shows in its own calendar. *)
Definition fieldsOf (date : DateValue) : Z * Z * Z :=
  match date with
  | ofNepali d => (Nepali.getYear d, Nepali.getMonth d, Nepali.getDate d)
  | ofJs d => (JsDate.getFullYear d, JsDate.getMonth d, JsDate.getDate d)
  end.

(** The displayed month, in the calendar the language selects. *)
Definition anchor (language : Language) (st : State) : Z * Z :=
  match language with
  | np =>
      (Nepali.getYear (nepali (currentMonth st)),
       Nepali.getMonth (nepali (currentMonth st)))
  | en =>
      (JsDate.getFullYear (gregorian (currentMonth st)),
       JsDate.getMonth (gregorian (currentMonth st)))
  end.

(** The ordinal rule as the specification words it, for comparison with
    [getOrdinalSuffix]; [%] is JavaScript's. *)
Definition ordinalRule (day : Z) : string :=
  let v := Z.rem day 100 in
  if (v =? 11) || (v =? 12) || (v =? 13) then "th"
  else
    match Z.rem day 10 with
    | 1 => "st"
    | 2 => "nd"
    | 3 => "rd"
    | _ => "th"
    end.

(** The values [day % 100] can take. *)
Definition remainders : list Z :=
  map (fun n => Z.of_nat n - 99) (seq 0 199).

(* ================================================================= *)
(** ** What the proofs ask of a library *)

(** The length of BS month [m] of year [y], read off the library the way
    the component does: the day number of day 0 of the following month. *)
Definition daysInBsMonth (lib : Library) (y m : Z) : Z :=
  Nepali.getDate (Nepali.fromYMD lib y (m + 1) 0).

(** On the BS years [era] that the library supports: no month is empty,
    the constructor keeps a date that needs no normalising, and day 0 of
    the following month is the last day of the month. *)
Record Lawful (era : Z -> Prop) (lib : Library) : Prop := {
  month_not_empty :
    forall y m, era y -> 0 <= m <= 11 -> 1 <= daysInBsMonth lib y m;
  fromYMD_in_range :
    forall y m d, era y -> 0 <= m <= 11 -> 1 <= d <= daysInBsMonth lib y m ->
      Nepali.fromYMD lib y m d = Nepali.BS y m d;
  fromYMD_day_zero :
    forall y m, era y -> 0 <= m <= 11 ->
      Nepali.fromYMD lib y (m + 1) 0 = Nepali.BS y m (daysInBsMonth lib y m)
}.

(** The state the handlers expect: a BS month in 0-11 and, when a
    [NepaliDate] is selected, a day of at least 1. *)
Definition wellFormed (st : State) : Prop :=
  0 <= Nepali.getMonth (nepali (currentMonth st)) <= 11
  /\ 1 <= currentDay st.

(** Years the [Date] constructor reads as written. *)
Definition plainYear (y : Z) : Prop := ~ (0 <= y <= 99).

(** The anchor as a count of months, in each calendar. *)
Definition bsMonths (st : State) : Z :=
  12 * Nepali.getYear (nepali (currentMonth st))
  + Nepali.getMonth (nepali (currentMonth st)).

Definition adMonths (st : State) : Z :=
  12 * JsDate.getFullYear (gregorian (currentMonth st))
  + JsDate.getMonth (gregorian (currentMonth st)).

(** A run of [handleMonthChange] calls. *)
Definition advanceAll (lib : Library) (language : Language) (st : State)
    (deltas : list Z) : State :=
  fold_left (handleMonthChange lib language) deltas st.

(** The years a run passes through, starting from month count [months]:
    the year of the start and of every anchor asked for. *)
Fixpoint yearsVisited (months : Z) (deltas : list Z) : list Z :=
  months / 12 ::
  match deltas with
  | [] => []
  | d :: rest => yearsVisited (months + d) rest
  end.

Definition sum (deltas : list Z) : Z := fold_right Z.add 0 deltas.

(** Twelve months more are one year more, on the years the library
    supports. *)
Definition Carries (era : Z -> Prop) (lib : Library) : Prop :=
  forall y m d, era (y + 1) -> 0 <= m <= 11 ->
    Nepali.fromYMD lib y (m + 12) d = Nepali.fromYMD lib (y + 1) m d.

(** The states the component can be in: what the initialisers give, and
    from there every call of a handler or of [setIsOpen]. *)
Inductive Reachable (lib : Library) (language : Language) (format : string)
    : State -> Prop :=
| reach_init defaultValue st :
    init lib language defaultValue = Ready st ->
    Reachable lib language format st
| reach_select st day :
    Reachable lib language format st ->
    Reachable lib language format
      (fst (handleDateSelect lib language format st day))
| reach_month st increment :
    Reachable lib language format st ->
    Reachable lib language format (handleMonthChange lib language st increment)
| reach_open st open :
    Reachable lib language format st ->
    Reachable lib language format (setIsOpen st open).

(** The class of the selected date is the one the language asks for. *)
Definition classMatches (language : Language) (st : State) : Prop :=
  match selectedDate st, language with
  | None, _ => True
  | Some (ofNepali _), np => True
  | Some (ofJs _), en => True
  | Some _, _ => False
  end.

(** The digits of a number from 0 to 9999 as text, for stating what
    [Js.toString] and [Js.padStart] give. *)
Definition digitChar (k : Z) : ascii := ascii_of_N (Z.to_N (48 + k)).

Definition fourDigits (n : Z) : string :=
  String (digitChar (n / 1000))
    (String (digitChar (n / 100 mod 10))
       (String (digitChar (n / 10 mod 10))
          (String (digitChar (n mod 10)) ""))).

Definition twoDigits (n : Z) : string :=
  String (digitChar (n / 10)) (String (digitChar (n mod 10)) "").

(** The ten digit characters. *)
Definition isDigit (c : ascii) : Prop :=
  In c ["0"; "1"; "2"; "3"; "4"; "5"; "6"; "7"; "8"; "9"]%char.

(** Numbers from [lo], [count] of them. *)
Definition upFrom (lo : Z) (count : nat) : list Z :=
  map (fun n => lo + Z.of_nat n) (seq 0 count).

(* ================================================================= *)
(** ** A sample library *)

(** A library whose every BS year has the month lengths of BS 2081
    (31, 32, 31, 32, 31, 30, 30, 30, 29, 30, 29, 31) and whose 1 Baisakh
    2081 is 13 April 2024, so that inside BS 2081 (13 April 2024 to 13
    April 2025) it converts as the package does; the other years repeat
    that row and are the sample's own.  It normalises month and day
    overflow by counting days, and like the package it has the BS years
    2000 to 2090.  Its host is in Kathmandu, 5 hours 45 minutes ahead of
    UTC. *)
Module Sample.

Definition monthStart (m : Z) : Z :=
  match m with
  | 0 => 0
  | 1 => 31
  | 2 => 63
  | 3 => 94
  | 4 => 126
  | 5 => 157
  | 6 => 187
  | 7 => 217
  | 8 => 247
  | 9 => 276
  | 10 => 306
  | _ => 335
  end.

Definition monthOf (r : Z) : Z :=
  if r <? 31 then 0
  else if r <? 63 then 1
  else if r <? 94 then 2
  else if r <? 126 then 3
  else if r <? 157 then 4
  else if r <? 187 then 5
  else if r <? 217 then 6
  else if r <? 247 then 7
  else if r <? 276 then 8
  else if r <? 306 then 9
  else if r <? 335 then 10
  else 11.

Definition monthLength (m : Z) : Z :=
  match m with
  | 0 | 2 | 4 | 11 => 31
  | 1 | 3 => 32
  | 8 | 10 => 29
  | _ => 30
  end.

(** Days from 1 Baisakh 2081 to a date and back. *)
Definition ordinal (y m d : Z) : Z :=
  366 * (y + m / 12 - 2081) + monthStart (m mod 12) + d - 1.

Definition ofOrdinal (n : Z) : NepaliDate :=
  let r := n mod 366 in
  Nepali.BS (2081 + n / 366) (monthOf r) (r - monthStart (monthOf r) + 1).

(** 13 April 2024. *)
Definition epoch : Z := JsDate.MakeDay 2024 3 13.

Definition fromYMD (y m d : Z) : NepaliDate := ofOrdinal (ordinal y m d).

Definition fromDate (d : Date) : NepaliDate :=
  ofOrdinal (JsDate.dayNumber d - epoch).

Definition toJsDate (d : NepaliDate) : Date :=
  JsDate.ofDay
    (epoch + ordinal (Nepali.getYear d) (Nepali.getMonth d) (Nepali.getDate d)).

(** Reading "Y-M-D": decimal fields between separators. *)
Fixpoint number (acc : Z) (cs : list ascii) : option Z :=
  match cs with
  | [] => Some acc
  | c :: r =>
      match Js.parseInt c with
      | Some k => number (10 * acc + k) r
      | None => None
      end
  end.

Fixpoint fields (sep : ascii -> bool) (cur : list ascii) (cs : list ascii)
    : list (list ascii) :=
  match cs with
  | [] => [rev cur]
  | c :: r => if sep c then rev cur :: fields sep [] r else fields sep (c :: cur) r
  end.

Definition numbers (sep : ascii -> bool) (text : string) : option (list Z) :=
  fold_right
    (fun f acc =>
       match f, acc with
       | _ :: _, Some l =>
           match number 0 f with
           | Some k => Some (k :: l)
           | None => None
           end
       | _, _ => None
       end)
    (Some [])
    (fields sep [] (Js.split text)).

Definition isSeparator (c : ascii) : bool :=
  let n := N_of_ascii c in ((n =? 45) || (n =? 46) || (n =? 47))%N.

(** The BS years the library has. *)
Definition inWindow (y : Z) : bool := (2000 <=? y) && (y <=? 2090).

Definition era (y : Z) : Prop := 2000 <= y <= 2090.

(** [new NepaliDate("Y-M-D")]: three numbers, the year one the library
    has, the month counted from 1; anything else throws. *)
Definition fromString (text : string) : option NepaliDate :=
  match numbers isSeparator text with
  | Some [y; m; d] => if inWindow y then Some (fromYMD y (m - 1) d) else None
  | _ => None
  end.

(** [new NepaliDate(date)] returns for the days of the years the library
    has. *)
Definition acceptsDate (d : Date) : bool :=
  inWindow (Nepali.getYear (fromDate d)).

(** Kathmandu, in minutes ahead of UTC. *)
Definition offset : Z := 345.

(** [new Date(text)]: the host reads the date-only form, and any other
    text as the Invalid Date. *)
Definition parseDate (text : string) : option Date :=
  JsDate.parseDateOnly offset text.

Definition lib : Library :=
  {| Nepali.fromYMD := fromYMD;
     Nepali.fromDate := fromDate;
     Nepali.acceptsDate := acceptsDate;
     Nepali.fromInvalidDate := None;
     Nepali.fromString := fromString;
     Nepali.toJsDate := toJsDate;
     Nepali.nowNepali := Some (Nepali.BS 2081 8 17);
     Nepali.nowDate := JsDate.ofDay (JsDate.MakeDay 2025 0 1);
     Nepali.parseDate := parseDate |}.

(** The fields of a [Date], for reading results. *)
Definition ymd (d : Date) : Z * Z * Z :=
  (JsDate.getFullYear d, JsDate.getMonth d, JsDate.getDate d).

(** The state a BS date gives when it is both selected and displayed. *)
Definition showing (d : NepaliDate) : State :=
  {| selectedDate := Some (ofNepali d);
     currentMonth := {| nepali := d; gregorian := toJsDate d |};
     isOpen := false |}.

(** The same for an AD date. *)
Definition showingDate (d : Date) : State :=
  {| selectedDate := Some (ofJs d);
     currentMonth := {| nepali := fromDate d; gregorian := d |};
     isOpen := false |}.


(** [nepaliDate.getDay()] in the sample library: the weekday of the
    converted date. *)
Definition getDay (d : NepaliDate) : Z := JsDate.getDay (toJsDate d).
End Sample.

(* ================================================================= *)
(** ** Facts about [Date] *)

Module JsDateFacts.
Import JsDate.

Lemma leapDay_isLeapYear y : leapDay y = if isLeapYear y then 1 else 0.
Proof.
  unfold leapDay, DaysInYear, isLeapYear.
  destruct (y mod 4 =? 0), (y mod 100 =? 0), (y mod 400 =? 0);
    reflexivity.
Qed.

Lemma DayFromYear_succ y : DayFromYear (y + 1) = DayFromYear y + DaysInYear y.
Proof.
  unfold DayFromYear, DaysInYear.
  destruct (y mod 4 =? 0) eqn:E4, (y mod 100 =? 0) eqn:E100,
    (y mod 400 =? 0) eqn:E400; cbn [negb];
    rewrite ?Z.eqb_eq, ?Z.eqb_neq in *; Z.div_mod_to_equations; lia.
Qed.

Lemma DayFromYear_mono a b : a <= b -> DayFromYear a <= DayFromYear b.
Proof. unfold DayFromYear. intros. Z.div_mod_to_equations. lia. Qed.

Lemma YearFromDay_bounds n :
  DayFromYear (YearFromDay n) <= n < DayFromYear (YearFromDay n + 1).
Proof.
  unfold YearFromDay.
  set (y0 := 1970 + 400 * n / 146097).
  destruct (DayFromYear (y0 + 1) <=? n) eqn:E1;
    [apply Z.leb_le in E1 | apply Z.leb_gt in E1].
  - split; [exact E1|].
    subst y0. unfold DayFromYear in *. Z.div_mod_to_equations. lia.
  - destruct (DayFromYear y0 <=? n) eqn:E0;
      [apply Z.leb_le in E0 | apply Z.leb_gt in E0].
    + split; assumption.
    + replace (y0 - 1 + 1) with y0 by lia. split; [|exact E0].
      subst y0. unfold DayFromYear in *. Z.div_mod_to_equations. lia.
Qed.

Lemma YearFromDay_unique n y :
  DayFromYear y <= n < DayFromYear (y + 1) -> YearFromDay n = y.
Proof.
  intros [Hlo Hhi].
  destruct (YearFromDay_bounds n) as [Glo Ghi].
  destruct (Z.lt_trichotomy (YearFromDay n) y) as [Hlt | [Heq | Hgt]];
    [exfalso | exact Heq | exfalso].
  - pose proof (DayFromYear_mono (YearFromDay n + 1) y). lia.
  - pose proof (DayFromYear_mono (y + 1) (YearFromDay n)). lia.
Qed.

Lemma small_month mn : 0 <= mn <= 11 -> mn / 12 = 0 /\ mn mod 12 = mn.
Proof. intros. split; [apply Z.div_small | apply Z.mod_small]; lia. Qed.

Ltac each_month mn :=
  let H := fresh in
  assert (H : mn = 0 \/ mn = 1 \/ mn = 2 \/ mn = 3 \/ mn = 4 \/ mn = 5 \/ mn = 6
              \/ mn = 7 \/ mn = 8 \/ mn = 9 \/ mn = 10 \/ mn = 11) by lia;
  repeat (destruct H as [H | H]); subst mn.

Lemma day_in_year yr mn d :
  0 <= mn <= 11 -> 1 <= d <= daysInMonth yr mn ->
  0 <= monthStart (leapDay yr) mn + d - 1 < DaysInYear yr.
Proof.
  intros Hm Hd.
  assert (HL : DaysInYear yr = 365 + leapDay yr) by (unfold leapDay; lia).
  rewrite HL. rewrite leapDay_isLeapYear in *.
  each_month mn; cbn [monthStart daysInMonth] in *;
    destruct (isLeapYear yr); lia.
Qed.

Lemma MakeDay_fields yr mn d :
  0 <= mn <= 11 -> 1 <= d <= daysInMonth yr mn ->
  YearFromDay (MakeDay yr mn d) = yr
  /\ MonthFromDay (MakeDay yr mn d) = mn
  /\ DateFromDay (MakeDay yr mn d) = d.
Proof.
  intros Hm Hd.
  pose proof (day_in_year yr mn d Hm Hd) as Hin.
  destruct (small_month mn Hm) as [Hq Hr].
  assert (HY : YearFromDay (MakeDay yr mn d) = yr).
  { apply YearFromDay_unique. rewrite DayFromYear_succ.
    unfold MakeDay. rewrite Hq, Hr, Z.add_0_r. lia. }
  assert (HW : DayWithinYear (MakeDay yr mn d) = monthStart (leapDay yr) mn + d - 1).
  { unfold DayWithinYear. rewrite HY. unfold MakeDay.
    rewrite Hq, Hr, Z.add_0_r. lia. }
  assert (HM : MonthFromDay (MakeDay yr mn d) = mn).
  { unfold MonthFromDay. rewrite HW, HY.
    rewrite leapDay_isLeapYear in *.
    each_month mn; cbn [monthStart daysInMonth] in *;
      destruct (isLeapYear yr);
      repeat match goal with
             | |- context [?a <? ?b] =>
                 destruct (Z.ltb_spec a b); try lia
             end; reflexivity. }
  split; [exact HY | split; [exact HM |]].
  unfold DateFromDay. rewrite HW, HY, HM. lia.
Qed.

Lemma MakeDay_carry yr m d :
  MakeDay yr m d = MakeDay (yr + m / 12) (m mod 12) d.
Proof.
  unfold MakeDay.
  assert (H : 0 <= m mod 12 <= 11) by (pose proof (Z.mod_pos_bound m 12); lia).
  destruct (small_month _ H) as [Hq Hr]. rewrite Hq, Hr, Z.add_0_r. reflexivity.
Qed.

Lemma MakeDay_day_zero yr mn :
  0 <= mn <= 11 -> MakeDay yr (mn + 1) 0 = MakeDay yr mn (daysInMonth yr mn).
Proof.
  intros Hm. unfold MakeDay.
  destruct (small_month mn Hm) as [Hq Hr]. rewrite Hq, Hr, Z.add_0_r.
  destruct (Z.eq_dec mn 11) as [-> | Hne].
  - change ((11 + 1) / 12) with 1. change ((11 + 1) mod 12) with 0.
    rewrite DayFromYear_succ. unfold leapDay. cbn [monthStart daysInMonth]. rewrite ?Z.add_0_r. lia.
  - rewrite (Z.div_small (mn + 1)), (Z.mod_small (mn + 1)), ?Z.add_0_r by lia.
    rewrite leapDay_isLeapYear.
    each_month mn; try lia;
      repeat match goal with
             | |- context [monthStart _ (?a + 1)] =>
                 let v := eval vm_compute in (a + 1) in change (a + 1) with v
             end;
      cbn [monthStart daysInMonth]; destruct (isLeapYear yr); lia.
Qed.

Lemma DayWithinYear_range n :
  0 <= DayWithinYear n < 365 + leapDay (YearFromDay n).
Proof.
  unfold DayWithinYear, leapDay.
  pose proof (YearFromDay_bounds n) as H.
  rewrite DayFromYear_succ in H. lia.
Qed.

Lemma MonthFromDay_range n : 0 <= MonthFromDay n <= 11.
Proof.
  unfold MonthFromDay.
  repeat match goal with
         | |- context [if ?a <? ?b then _ else _] => destruct (a <? b)
         end; lia.
Qed.

Lemma DateFromDay_pos n : 1 <= DateFromDay n.
Proof.
  unfold DateFromDay, MonthFromDay.
  pose proof (DayWithinYear_range n) as H.
  repeat match goal with
         | |- context [if ?a <? ?b then _ else _] =>
             destruct (Z.ltb_spec a b)
         end; cbn [monthStart]; lia.
Qed.

Lemma daysInMonth_range y m : 28 <= daysInMonth y m <= 31.
Proof.
  unfold daysInMonth.
  repeat match goal with
         | |- context [match ?x with _ => _ end] => destruct x
         end; lia.
Qed.

(** The fields of [new Date(y, m, d)] when [d] is a day of the month that
    [m] normalises to. *)
Lemma newDate_fields y m d :
  1 <= d <= daysInMonth (MakeFullYear y + m / 12) (m mod 12) ->
  getFullYear (newDate y m d) = MakeFullYear y + m / 12
  /\ getMonth (newDate y m d) = m mod 12
  /\ getDate (newDate y m d) = d.
Proof.
  intros Hd. unfold getFullYear, getMonth, getDate, newDate.
  cbn [dayNumber]. rewrite MakeDay_carry.
  apply MakeDay_fields; [|exact Hd].
  pose proof (Z.mod_pos_bound m 12). lia.
Qed.

(** [new Date(y, m + 1, 0).getDate()] is the length of month [m]. *)
Lemma newDate_day_zero y mn :
  0 <= mn <= 11 ->
  getDate (newDate y (mn + 1) 0) = daysInMonth (MakeFullYear y) mn.
Proof.
  intros Hm. unfold getDate, newDate. cbn [dayNumber].
  rewrite MakeDay_day_zero by exact Hm.
  apply MakeDay_fields; [exact Hm|].
  pose proof (daysInMonth_range (MakeFullYear y) mn). lia.
Qed.

End JsDateFacts.

(* ================================================================= *)
(** ** The sample library is lawful *)

Module SampleFacts.

Lemma ofOrdinal_split k r :
  0 <= r < 366 ->
  Sample.ofOrdinal (366 * k + r)
  = Nepali.BS (2081 + k) (Sample.monthOf r)
      (r - Sample.monthStart (Sample.monthOf r) + 1).
Proof.
  intros Hr. unfold Sample.ofOrdinal.
  assert (Hq : (366 * k + r) / 366 = k)
    by (Z.div_mod_to_equations; lia).
  assert (Hm : (366 * k + r) mod 366 = r)
    by (Z.div_mod_to_equations; lia).
  rewrite Hq, Hm. reflexivity.
Qed.

Ltac decide_month :=
  unfold Sample.monthOf;
  repeat match goal with
         | |- context [if ?a <? ?b then _ else _] =>
             destruct (Z.ltb_spec a b); try lia
         end.

Lemma sample_fromYMD_in_range y m d :
  0 <= m <= 11 -> 1 <= d <= Sample.monthLength m ->
  Sample.fromYMD y m d = Nepali.BS y m d.
Proof.
  intros Hm Hd. unfold Sample.fromYMD, Sample.ordinal.
  destruct (JsDateFacts.small_month m Hm) as [Hq Hr]. rewrite Hq, Hr.
  replace (366 * (y + 0 - 2081) + Sample.monthStart m + d - 1)
    with (366 * (y - 2081) + (Sample.monthStart m + d - 1)) by lia.
  JsDateFacts.each_month m; cbn [Sample.monthStart Sample.monthLength] in *;
    (rewrite ofOrdinal_split by lia); decide_month;
    cbn [Sample.monthStart]; f_equal; lia.
Qed.

Lemma sample_fromYMD_day_zero y m :
  0 <= m <= 11 ->
  Sample.fromYMD y (m + 1) 0 = Nepali.BS y m (Sample.monthLength m).
Proof.
  intros Hm. unfold Sample.fromYMD, Sample.ordinal.
  destruct (Z.eq_dec m 11) as [-> | Hne].
  - change ((11 + 1) / 12) with 1. change ((11 + 1) mod 12) with 0.
    cbn [Sample.monthStart Sample.monthLength].
    replace (366 * (y + 1 - 2081) + 0 + 0 - 1)
      with (366 * (y - 2081) + 365) by lia.
    rewrite ofOrdinal_split by lia. f_equal. lia.
  - rewrite (Z.div_small (m + 1)), (Z.mod_small (m + 1)) by lia.
    JsDateFacts.each_month m; try lia;
      repeat match goal with
             | |- context [Sample.monthStart (?a + 1)] =>
                 let v := eval vm_compute in (a + 1) in change (a + 1) with v
             end;
      cbn [Sample.monthStart Sample.monthLength];
      match goal with
      | |- context [Sample.ofOrdinal (366 * (y + 0 - 2081) + ?c + 0 - 1)] =>
          replace (366 * (y + 0 - 2081) + c + 0 - 1)
            with (366 * (y - 2081) + (c - 1)) by lia
      end;
      (rewrite ofOrdinal_split by lia); f_equal; lia.
Qed.

Lemma sample_daysInBsMonth y m :
  0 <= m <= 11 -> daysInBsMonth Sample.lib y m = Sample.monthLength m.
Proof.
  intros Hm. unfold daysInBsMonth. cbn [Nepali.fromYMD Sample.lib].
  rewrite sample_fromYMD_day_zero by exact Hm. reflexivity.
Qed.

Lemma sample_lawful : Lawful Sample.era Sample.lib.
Proof.
  split.
  - intros y m _ Hm. rewrite sample_daysInBsMonth by exact Hm.
    JsDateFacts.each_month m; cbn; lia.
  - intros y m d _ Hm Hd. rewrite sample_daysInBsMonth in Hd by exact Hm.
    apply sample_fromYMD_in_range; assumption.
  - intros y m _ Hm. rewrite sample_daysInBsMonth by exact Hm.
    apply sample_fromYMD_day_zero. exact Hm.
Qed.

End SampleFacts.

(* ================================================================= *)
(** ** One call of [handleMonthChange], and a run of calls *)

Lemma rem_rem_12 a : Z.rem (Z.rem a 12 + 12) 12 = a mod 12.
Proof. Z.to_euclidean_division_equations. lia. Qed.

Lemma newNepaliYearMonth_eq y m increment :
  newNepaliYearMonth y m increment
  = (y + (m + increment) / 12, Z.rem (Z.rem (m + increment) 12 + 12) 12).
Proof.
  unfold newNepaliYearMonth.
  destruct (Z.ltb_spec 11 (m + increment)).
  - f_equal. Z.to_euclidean_division_equations. lia.
  - destruct (Z.ltb_spec (m + increment) 0); [reflexivity|].
    f_equal; Z.to_euclidean_division_equations; lia.
Qed.

Section Advance.

Variable era : Z -> Prop.
Variable lib : Library.
Hypothesis laws : Lawful era lib.
Variable language : Language.

Lemma handleMonthChange_nepali st increment :
  1 <= currentDay st ->
  let y := Nepali.getYear (nepali (currentMonth st))
           + (Nepali.getMonth (nepali (currentMonth st)) + increment) / 12 in
  let m := (Nepali.getMonth (nepali (currentMonth st)) + increment) mod 12 in
  era y ->
  nepali (currentMonth (handleMonthChange lib language st increment))
  = Nepali.BS y m (Z.min (currentDay st) (daysInBsMonth lib y m)).
Proof.
  intros Hday y m Hera. unfold handleMonthChange.
  rewrite newNepaliYearMonth_eq, rem_rem_12. cbn [currentMonth nepali].
  fold y m. fold (daysInBsMonth lib y m).
  assert (Hm : 0 <= m <= 11).
  { subst m.
    pose proof (Z.mod_pos_bound
                  (Nepali.getMonth (nepali (currentMonth st)) + increment) 12).
    lia. }
  pose proof (month_not_empty era lib laws y m Hera Hm).
  apply (fromYMD_in_range era lib laws); [exact Hera | lia | lia].
Qed.

Lemma handleMonthChange_gregorian st increment :
  1 <= currentDay st ->
  let g := gregorian (currentMonth st) in
  let Y := JsDate.MakeFullYear
             (JsDate.MakeFullYear (JsDate.getFullYear g)
              + (JsDate.getMonth g + increment) / 12) in
  let M := (JsDate.getMonth g + increment) mod 12 in
  let g' := gregorian (currentMonth (handleMonthChange lib language st increment)) in
  JsDate.getFullYear g' = Y
  /\ JsDate.getMonth g' = M
  /\ JsDate.getDate g' = Z.min (currentDay st) (JsDate.daysInMonth Y M).
Proof.
  intros Hday g Y M g'. subst g'. unfold handleMonthChange.
  rewrite newNepaliYearMonth_eq. cbn [currentMonth gregorian]. fold g.
  set (newGregorianDate :=
         JsDate.newDate (JsDate.getFullYear g) (JsDate.getMonth g + increment) 1).
  assert (HM : 0 <= M <= 11)
    by (subst M; pose proof (Z.mod_pos_bound (JsDate.getMonth g + increment) 12); lia).
  destruct (JsDateFacts.newDate_fields (JsDate.getFullYear g)
              (JsDate.getMonth g + increment) 1) as (Hy & Hm & _).
  { pose proof (JsDateFacts.daysInMonth_range
                  (JsDate.MakeFullYear (JsDate.getFullYear g)
                   + (JsDate.getMonth g + increment) / 12)
                  ((JsDate.getMonth g + increment) mod 12)). lia. }
  fold newGregorianDate in Hy, Hm. fold M in Hm. rewrite Hy, Hm.
  rewrite JsDateFacts.newDate_day_zero by exact HM. fold Y.
  destruct (JsDateFacts.small_month M HM) as [Hq Hr].
  pose proof (JsDateFacts.daysInMonth_range Y M) as Hrange.
  destruct (JsDateFacts.newDate_fields
              (JsDate.MakeFullYear (JsDate.getFullYear g)
               + (JsDate.getMonth g + increment) / 12)
              M (Z.min (currentDay st) (JsDate.daysInMonth Y M)))
    as (Hy' & Hm' & Hd').
  { rewrite Hq, Hr, Z.add_0_r. fold Y. lia. }
  rewrite Hq, Z.add_0_r in Hy'. rewrite Hr in Hm'.
  fold Y in Hy'. auto.
Qed.

End Advance.

Lemma handleMonthChange_selected lib language st increment :
  let st' := handleMonthChange lib language st increment in
  selectedDate st'
  = Some (match language with
          | np => ofNepali (nepali (currentMonth st'))
          | en => ofJs (gregorian (currentMonth st'))
          end).
Proof.
  unfold handleMonthChange.
  destruct (newNepaliYearMonth _ _ _) as [y m]. reflexivity.
Qed.

Lemma plainYear_MakeFullYear y : plainYear y -> JsDate.MakeFullYear y = y.
Proof.
  unfold plainYear, JsDate.MakeFullYear. intros H.
  destruct (Z.leb_spec 0 y), (Z.leb_spec y 99); cbn [andb]; lia.
Qed.

Lemma adMonths_year st :
  adMonths st / 12 = JsDate.getFullYear (gregorian (currentMonth st)).
Proof.
  unfold adMonths, JsDate.getMonth.
  pose proof (JsDateFacts.MonthFromDay_range
                (JsDate.dayNumber (gregorian (currentMonth st)))).
  Z.div_mod_to_equations. lia.
Qed.

Lemma bsMonths_year st :
  wellFormed st ->
  bsMonths st / 12 = Nepali.getYear (nepali (currentMonth st)).
Proof.
  intros [Hmonth _]. unfold bsMonths. Z.div_mod_to_equations. lia.
Qed.

Section Run.

Variable era : Z -> Prop.
Variable lib : Library.
Hypothesis laws : Lawful era lib.
Variable language : Language.

Lemma handleMonthChange_step st increment :
  wellFormed st ->
  era ((bsMonths st + increment) / 12) ->
  plainYear (adMonths st / 12) ->
  plainYear ((adMonths st + increment) / 12) ->
  let st' := handleMonthChange lib language st increment in
  wellFormed st'
  /\ bsMonths st' = bsMonths st + increment
  /\ adMonths st' = adMonths st + increment.
Proof.
  intros [Hmonth Hday] Hera Hp0 Hp1 st'.
  assert (Hera' : era (Nepali.getYear (nepali (currentMonth st))
                       + (Nepali.getMonth (nepali (currentMonth st)) + increment) / 12)).
  { replace (Nepali.getYear (nepali (currentMonth st))
             + (Nepali.getMonth (nepali (currentMonth st)) + increment) / 12)
      with ((bsMonths st + increment) / 12); [exact Hera|].
    unfold bsMonths. Z.div_mod_to_equations. lia. }
  pose proof (handleMonthChange_nepali era lib laws language st increment
                Hday Hera') as Hn.
  pose proof (handleMonthChange_gregorian lib language st increment Hday) as Hg.
  pose proof (handleMonthChange_selected lib language st increment) as Hs.
  cbv zeta in Hn, Hg, Hs. fold st' in Hn, Hg, Hs.
  destruct Hg as (HgY & HgM & HgD).
  set (y := Nepali.getYear (nepali (currentMonth st))) in *.
  set (m := Nepali.getMonth (nepali (currentMonth st))) in *.
  set (g := gregorian (currentMonth st)) in *.
  assert (Hm' : 0 <= (m + increment) mod 12 <= 11)
    by (pose proof (Z.mod_pos_bound (m + increment) 12); lia).
  pose proof (month_not_empty era lib laws (y + (m + increment) / 12) _
                Hera' Hm') as Hlen.
  rewrite adMonths_year in Hp0. fold g in Hp0.
  assert (HY : (adMonths st + increment) / 12
               = JsDate.getFullYear g + (JsDate.getMonth g + increment) / 12).
  { unfold adMonths. fold g. Z.div_mod_to_equations. lia. }
  rewrite HY in Hp1.
  rewrite (plainYear_MakeFullYear _ Hp0) in HgY, HgD.
  rewrite (plainYear_MakeFullYear _ Hp1) in HgY, HgD.
  repeat split.
  - rewrite Hn. cbn [Nepali.getMonth]. lia.
  - rewrite Hn. cbn [Nepali.getMonth]. lia.
  - unfold currentDay at 1. rewrite Hs.
    destruct language; cbn [getDate].
    + rewrite Hn. cbn [Nepali.getDate]. lia.
    + rewrite HgD.
      pose proof (JsDateFacts.daysInMonth_range
                    (JsDate.getFullYear g + (JsDate.getMonth g + increment) / 12)
                    ((JsDate.getMonth g + increment) mod 12)). lia.
  - unfold bsMonths. rewrite Hn. cbn [Nepali.getYear Nepali.getMonth].
    fold y m. Z.div_mod_to_equations. lia.
  - unfold adMonths. rewrite HgY, HgM. fold g. Z.div_mod_to_equations. lia.
Qed.

Lemma advanceAll_months deltas : forall st,
  wellFormed st ->
  Forall era (yearsVisited (bsMonths st) deltas) ->
  Forall plainYear (yearsVisited (adMonths st) deltas) ->
  let st' := advanceAll lib language st deltas in
  wellFormed st'
  /\ bsMonths st' = bsMonths st + sum deltas
  /\ adMonths st' = adMonths st + sum deltas.
Proof.
  induction deltas as [| d rest IH]; intros st Hwf Hbs Hyears.
  - cbn. repeat split; try apply Hwf; lia.
  - cbn [yearsVisited] in Hbs, Hyears.
    inversion Hbs as [| b0 bl _ Hbrest]; subst.
    inversion Hyears as [| y0 l Hp0 Hrest]; subst.
    assert (Hp1 : plainYear ((adMonths st + d) / 12) /\ era ((bsMonths st + d) / 12)).
    { destruct rest; cbn [yearsVisited] in Hrest, Hbrest;
        inversion Hrest; inversion Hbrest; split; assumption. }
    destruct Hp1 as [Hp1 He1].
    destruct (handleMonthChange_step st d Hwf He1 Hp0 Hp1) as (Hwf1 & Hbs1 & Had1).
    cbn zeta in Hwf1, Hbs1, Had1.
    unfold advanceAll in *. cbn [fold_left sum fold_right].
    rewrite <- Had1 in Hrest. rewrite <- Hbs1 in Hbrest.
    destruct (IH _ Hwf1 Hbrest Hrest) as (Hwf' & Hbs' & Had').
    cbn zeta in Hwf', Hbs', Had'.
    repeat split; try apply Hwf'.
    + rewrite Hbs', Hbs1. unfold sum. lia.
    + rewrite Had', Had1. unfold sum. lia.
Qed.

End Run.

(* ================================================================= *)
(** ** Selecting a day *)

(** C1.  With the sample library, after [init("2081-09-17", np)] the two
    anchors are the same day (17 Poush 2081 is 1 January 2025), but
    selecting day 20 reports 2025/01/20 to [onDateChange] beside BS
    2081, month index 8, day 20: the AD date is built from the AD anchor's
    own year and month and the BS day number.  Converting 20 Poush 2081
    gives 4 January 2025, which is what the day grid computes for the same
    button. *)
Theorem C1_selection_pairs_day_with_other_anchor :
  let st := Sample.showing (Nepali.BS 2081 8 17) in
  let reported := snd (handleDateSelect Sample.lib np "YYYY/MM/DD" st 20) in
  init Sample.lib np (Some "2081-09-17") = Ready st
  /\ Sample.ymd (gregorian (currentMonth st)) = (2025, 0, 1)
  /\ selectedDate (fst (handleDateSelect Sample.lib np "YYYY/MM/DD" st 20))
     = Some (ofNepali (Nepali.BS 2081 8 20))
  /\ english reported = "2025/01/20"
  /\ formatDate Sample.lib (Some (ofNepali (Nepali.BS 2081 8 20))) en "YYYY/MM/DD"
     = "2025/01/04"
  /\ Sample.ymd (snd (gridDates Sample.lib np st 20)) = (2025, 0, 4).
Proof. vm_compute. repeat split; reflexivity. Qed.

(** C4, as stated, fails: with the sample library the displayed month,
    Poush 2081, has 29 days, and [handleDateSelect] with day 30 raises
    nothing; it replaces the selection by 1 Magh 2081 and reports it. *)
Lemma C4_day_past_the_month_is_selected :
  let st := Sample.showing (Nepali.BS 2081 8 17) in
  let result := handleDateSelect Sample.lib np "YYYY/MM/DD" st 30 in
  gridLength Sample.lib np st = 29
  /\ selectedDate (fst result) = Some (ofNepali (Nepali.BS 2081 9 1))
  /\ selectedDate (fst result) <> selectedDate st
  /\ nepaliText (snd result) = "२०८१/०९/०१".
Proof.
  vm_compute. repeat split; try reflexivity. discriminate.
Qed.

(** C4, amended.  The displayed month has at least one day, and
    [handleDateSelect] with a day from 1 to its length (the days the grid
    offers, the last one included) succeeds: the displayed month stays as
    it is and the selected date is that day of the displayed month.  The
    BS anchor is a month of a year the library supports, the AD anchor's
    year is not one of 0 to 99.  A day outside that range is not refused,
    as the example above shows. *)
Theorem C4_select_day_within_the_month (lib : Library)
    (language : Language) (format : string) (st : State) (day : Z)
    (era : Z -> Prop) :
  Lawful era lib ->
  era (Nepali.getYear (nepali (currentMonth st))) ->
  0 <= Nepali.getMonth (nepali (currentMonth st)) <= 11 ->
  plainYear (JsDate.getFullYear (gregorian (currentMonth st))) ->
  let result := handleDateSelect lib language format st day in
  1 <= gridLength lib language st
  /\ (1 <= day <= gridLength lib language st ->
      currentMonth (fst result) = currentMonth st
      /\ option_map fieldsOf (selectedDate (fst result))
         = Some (fst (anchor language st), snd (anchor language st), day)).
Proof.
  intros laws Hera Hmonth Hplain. cbv zeta.
  set (month := currentMonth st) in *.
  pose proof (JsDateFacts.MonthFromDay_range
                (JsDate.dayNumber (gregorian month))) as HM.
  fold (JsDate.getMonth (gregorian month)) in HM.
  assert (Hlen : gridLength lib language st
                 = match language with
                   | np => daysInBsMonth lib (Nepali.getYear (nepali month))
                             (Nepali.getMonth (nepali month))
                   | en => JsDate.daysInMonth
                             (JsDate.getFullYear (gregorian month))
                             (JsDate.getMonth (gregorian month))
                   end).
  { unfold gridLength. fold month. destruct language; [reflexivity|].
    rewrite JsDateFacts.newDate_day_zero by exact HM.
    rewrite (plainYear_MakeFullYear _ Hplain). reflexivity. }
  rewrite Hlen. split.
  - destruct language.
    + apply (month_not_empty era lib laws); assumption.
    + pose proof (JsDateFacts.daysInMonth_range
                    (JsDate.getFullYear (gregorian month))
                    (JsDate.getMonth (gregorian month))). lia.
  - intros Hday. split; [reflexivity|].
    unfold handleDateSelect, anchor. fold month.
    cbn [fst snd selectedDate option_map].
    destruct language; cbn [fieldsOf].
    + rewrite (fromYMD_in_range era lib laws) by assumption. reflexivity.
    + destruct (JsDateFacts.small_month _ HM) as [Hq Hr].
      destruct (JsDateFacts.newDate_fields
                  (JsDate.getFullYear (gregorian month))
                  (JsDate.getMonth (gregorian month)) day) as (Hy & Hm & Hd).
      { rewrite Hq, Hr, Z.add_0_r, (plainYear_MakeFullYear _ Hplain). exact Hday. }
      rewrite Hy, Hm, Hd, Hq, Hr, Z.add_0_r, (plainYear_MakeFullYear _ Hplain).
      reflexivity.
Qed.

Lemma C4_select_last_day_of_poush :
  let st := Sample.showing (Nepali.BS 2081 8 17) in
  let result := handleDateSelect Sample.lib np "YYYY/MM/DD" st 29 in
  gridLength Sample.lib np st = 29
  /\ currentMonth (fst result) = currentMonth st
  /\ option_map fieldsOf (selectedDate (fst result)) = Some (2081, 8, 29).
Proof.
  assert (He : Sample.era 2081) by (unfold Sample.era; lia).
  assert (Hm : 0 <= 8 <= 11) by lia.
  assert (Hp : plainYear
                 (JsDate.getFullYear
                    (gregorian (currentMonth (Sample.showing (Nepali.BS 2081 8 17))))))
    by (intros [_ H]; vm_compute in H; apply H; reflexivity).
  destruct (C4_select_day_within_the_month Sample.lib np "YYYY/MM/DD"
              (Sample.showing (Nepali.BS 2081 8 17)) 29 Sample.era
              SampleFacts.sample_lawful He Hm Hp) as (_ & Hsel).
  split; [reflexivity|].
  apply Hsel. vm_compute. split; discriminate.
Defined.

(* ================================================================= *)
(** ** The header's range label *)

(** C2.  With the sample library, after [init("2025-01-20", en)] the header
    shows January 2025, whose days 1 to 31 run from 17 Poush to 18 Magh, so
    the label by conversion is पौष/माघ; [getNepaliMonthRange] is handed
    the BS anchor (7 Magh 2081) and returns माघ/फागुन, the anchor's BS
    month and the one after it.  For a BS anchor the label does come from
    the converted first and last day. *)
Theorem C2_nepali_range_ignores_the_ad_month :
  let st := Sample.showingDate (JsDate.newDate 2025 0 20) in
  init Sample.lib en (Some "2025-01-20") = Ready st
  /\ nepali (currentMonth st) = Nepali.BS 2081 9 7
  /\ getNepaliMonthRange Sample.lib (nepali (currentMonth st)) = "माघ/फागुन"
  /\ specNepaliMonthRange Sample.lib (gregorian (currentMonth st)) = "पौष/माघ"
  /\ getGregorianMonthRange Sample.lib (Nepali.BS 2081 8 17) = "Dec/Jan"
  /\ specGregorianMonthRange Sample.lib (Nepali.BS 2081 8 17) = "Dec/Jan".
Proof. vm_compute. repeat split; reflexivity. Qed.

(** X2.  For a BS anchor the Gregorian month label is the one the
    specification words: the months of the converted first and last day
    of the anchor's own month. *)
Theorem X2_gregorian_range_converts_the_bs_month (era : Z -> Prop)
    (lib : Library) (anchor : NepaliDate) :
  Lawful era lib ->
  era (Nepali.getYear anchor) ->
  0 <= Nepali.getMonth anchor <= 11 ->
  getGregorianMonthRange lib anchor = specGregorianMonthRange lib anchor.
Proof.
  intros laws Hera Hm.
  unfold getGregorianMonthRange, specGregorianMonthRange. cbv zeta.
  fold (daysInBsMonth lib (Nepali.getYear anchor) (Nepali.getMonth anchor)).
  pose proof (month_not_empty era lib laws _ _ Hera Hm) as Hlen.
  rewrite (fromYMD_day_zero era lib laws _ _ Hera Hm).
  rewrite (fromYMD_in_range era lib laws _ _
             (daysInBsMonth lib (Nepali.getYear anchor) (Nepali.getMonth anchor))
             Hera Hm) by lia.
  reflexivity.
Qed.

Lemma X2_poush_2081 :
  getGregorianMonthRange Sample.lib (Nepali.BS 2081 8 17) = "Dec/Jan".
Proof.
  assert (Hm : 0 <= Nepali.getMonth (Nepali.BS 2081 8 17) <= 11) by (cbn; lia).
  rewrite (X2_gregorian_range_converts_the_bs_month Sample.era Sample.lib
             (Nepali.BS 2081 8 17) SampleFacts.sample_lawful
             ltac:(vm_compute; split; discriminate) Hm).
  reflexivity.
Defined.

(* ================================================================= *)
(** ** Formatting *)

(** C3.  With the sample library, [init("2081-09-17", np)] selects BS year
    2081, month index 8, day 17, and [formatDate] with "YYYY/MM/DD" renders
    it as २०८१/०८/१७: Devanagari numerals, two digits per field, but the
    month field is the 0-based index 08 and not 09.  The Gregorian
    formatter adds 1 to the month; the Nepali one does not. *)
Theorem C3_np_month_field_is_the_index (lib : Library) :
  init Sample.lib np (Some "2081-09-17")
  = Ready (Sample.showing (Nepali.BS 2081 8 17))
  /\ formatDate lib (Some (ofNepali (Nepali.BS 2081 8 17))) np "YYYY/MM/DD"
     = "२०८१/०८/१७"
  /\ formatDate lib (Some (ofNepali (Nepali.BS 2081 8 17))) np "YYYY/MM/DD"
     <> "२०८१/०९/१७"
  /\ formatDate Sample.lib (Some (ofNepali (Nepali.BS 2081 8 17))) en "YYYY/MM/DD"
     = "2025/01/01".
Proof.
  split; [vm_compute; reflexivity|].
  split; [vm_compute; reflexivity|].
  split; [vm_compute; discriminate | vm_compute; reflexivity].
Qed.

(** C10.  In every language and for every template, formatting [null]
    gives the empty string, and a state with no selected date shows an
    empty input. *)
Theorem C10_null_date_formats_empty (lib : Library) (lang language : Language)
    (template format : string) (month : CurrentMonth) (open : bool) :
  formatDate lib None lang template = ""
  /\ inputValue lib language format
       {| selectedDate := None; currentMonth := month; isOpen := open |} = "".
Proof. split; reflexivity. Qed.

Lemma noAscii_app a b : Js.noAscii a = true -> Js.noAscii b = true -> Js.noAscii (a ++ b) = true.
Proof.
  induction a as [| c r IH]; cbn [Js.noAscii append]; intros Ha Hb; [exact Hb|].
  apply andb_true_iff in Ha. destruct Ha as [Hc Hr].
  rewrite Hc, (IH Hr Hb). reflexivity.
Qed.

Lemma numeral_noAscii c :
  Js.noAscii (Js.join [Js.indexNum NEPALI_NUMERALS (Js.parseInt c)]) = true.
Proof.
  unfold Js.parseInt.
  destruct ((48 <=? N_of_ascii c)%N && (N_of_ascii c <=? 57)%N) eqn:E;
    [|reflexivity].
  apply andb_true_iff in E. destruct E as [Hlo Hhi].
  apply N.leb_le in Hlo. apply N.leb_le in Hhi.
  assert (H : exists k : nat, (k < 10)%nat /\ Z.of_N (N_of_ascii c) - 48 = Z.of_nat k).
  { exists (N.to_nat (N_of_ascii c) - 48)%nat. lia. }
  destruct H as (k & Hk & ->).
  do 10 (destruct k as [| k]; [reflexivity|]). lia.
Qed.

Lemma digits_noAscii cs :
  Js.noAscii
    (Js.join (map (fun digit => Js.indexNum NEPALI_NUMERALS (Js.parseInt digit)) cs))
  = true.
Proof.
  induction cs as [| c r IH]; [reflexivity|].
  cbn [map Js.join].
  pose proof (numeral_noAscii c) as Hc. cbn [Js.join] in Hc.
  destruct (Js.indexNum NEPALI_NUMERALS (Js.parseInt c)) as [s |]; [|exact IH].
  apply noAscii_app; [|exact IH].
  replace (s ++ "") with s in Hc; [exact Hc|].
  clear. induction s as [| a s IHs]; [reflexivity|].
  cbn [append]. rewrite <- IHs. reflexivity.
Qed.

(** X1.  [toNepaliNumeral] writes 2081 as the four glyphs for 2, 0, 8, 1,
    and for no number does its text contain an ASCII character. *)
Theorem X1_numerals_are_devanagari (num : Z) :
  toNepaliNumeral 2081 = "२०८१"
  /\ Js.noAscii (toNepaliNumeral num) = true.
Proof.
  split; [reflexivity|]. unfold toNepaliNumeral. apply digits_noAscii.
Qed.

(* ================================================================= *)
(** ** Initialising *)




(* ================================================================= *)
(** ** Changing the month *)

(** C6.  After [handleMonthChange], with [d] the day selected before (1 if
    none), the day of each calendar's new date is [min d] of the length of
    that calendar's new month: the library's length for BS, the Gregorian
    rule for AD.  The new selection is the primary calendar's new date, so
    the selected day never exceeds the length of its month.  The BS year
    moved to is one the library supports. *)
Theorem C6_advance_clamps_the_day (era : Z -> Prop) (lib : Library)
    (language : Language) (st : State) (increment : Z) :
  Lawful era lib ->
  1 <= currentDay st ->
  era (Nepali.getYear (nepali (currentMonth st))
       + (Nepali.getMonth (nepali (currentMonth st)) + increment) / 12) ->
  let d := currentDay st in
  let st' := handleMonthChange lib language st increment in
  let bs := nepali (currentMonth st') in
  let ad := gregorian (currentMonth st') in
  Nepali.getDate bs
  = Z.min d (daysInBsMonth lib (Nepali.getYear bs) (Nepali.getMonth bs))
  /\ JsDate.getDate ad
     = Z.min d (JsDate.daysInMonth (JsDate.getFullYear ad) (JsDate.getMonth ad))
  /\ selectedDate st'
     = Some (match language with
             | np => ofNepali bs
             | en => ofJs ad
             end)
  /\ currentDay st'
     <= match language with
        | np => daysInBsMonth lib (Nepali.getYear bs) (Nepali.getMonth bs)
        | en => JsDate.daysInMonth (JsDate.getFullYear ad) (JsDate.getMonth ad)
        end.
Proof.
  intros laws Hday Hera. cbv zeta.
  pose proof (handleMonthChange_nepali era lib laws language st increment
                Hday Hera) as Hn.
  pose proof (handleMonthChange_gregorian lib language st increment Hday) as Hg.
  pose proof (handleMonthChange_selected lib language st increment) as Hs.
  cbv zeta in Hn, Hg, Hs. destruct Hg as (HgY & HgM & HgD).
  assert (Hbs : Nepali.getDate
                  (nepali (currentMonth (handleMonthChange lib language st increment)))
                = Z.min (currentDay st)
                    (daysInBsMonth lib
                       (Nepali.getYear
                          (nepali (currentMonth (handleMonthChange lib language st increment))))
                       (Nepali.getMonth
                          (nepali (currentMonth (handleMonthChange lib language st increment)))))).
  { rewrite Hn. reflexivity. }
  assert (Had : JsDate.getDate
                  (gregorian (currentMonth (handleMonthChange lib language st increment)))
                = Z.min (currentDay st)
                    (JsDate.daysInMonth
                       (JsDate.getFullYear
                          (gregorian (currentMonth (handleMonthChange lib language st increment))))
                       (JsDate.getMonth
                          (gregorian (currentMonth (handleMonthChange lib language st increment)))))).
  { rewrite HgY, HgM. exact HgD. }
  split; [exact Hbs|]. split; [exact Had|]. split; [exact Hs|].
  unfold currentDay at 1. rewrite Hs.
  destruct language; cbn [getDate]; [rewrite Hbs | rewrite Had]; lia.
Qed.

(** Advancing from 30 Mangsir 2081 into Poush, which has 29 days. *)
Lemma C6_mangsir_30_into_poush :
  let st' := handleMonthChange Sample.lib np (Sample.showing (Nepali.BS 2081 7 30)) 1 in
  daysInBsMonth Sample.lib 2081 8 = 29
  /\ nepali (currentMonth st') = Nepali.BS 2081 8 29
  /\ Nepali.getDate (nepali (currentMonth st'))
     = Z.min 30
         (daysInBsMonth Sample.lib
            (Nepali.getYear (nepali (currentMonth st')))
            (Nepali.getMonth (nepali (currentMonth st')))).
Proof.
  assert (Hday : 1 <= currentDay (Sample.showing (Nepali.BS 2081 7 30)))
    by (cbn; lia).
  destruct (C6_advance_clamps_the_day Sample.era Sample.lib np
              (Sample.showing (Nepali.BS 2081 7 30)) 1
              SampleFacts.sample_lawful Hday
              ltac:(vm_compute; split; discriminate)) as (Hbs & _).
  split; [reflexivity|]. split; [reflexivity|]. exact Hbs.
Defined.

(** C7.  For every integer [increment], [handleMonthChange] moves the BS
    anchor to year [y + floor(newMonth / 12)] and month
    [((newMonth % 12) + 12) % 12] with [newMonth = month + increment],
    and moves the AD anchor by the same rule on its own year and month.
    The BS year moved to is one the library supports, and the AD years
    before and after are ones the [Date] constructor reads as written
    (not 0 to 99). *)
Theorem C7_advance_normalises_both_anchors (era : Z -> Prop)
    (lib : Library) (language : Language) (st : State) (increment : Z) :
  Lawful era lib ->
  1 <= currentDay st ->
  let bs := nepali (currentMonth st) in
  let ad := gregorian (currentMonth st) in
  let newMonth := Nepali.getMonth bs + increment in
  let newAdMonth := JsDate.getMonth ad + increment in
  era (Nepali.getYear bs + newMonth / 12) ->
  plainYear (JsDate.getFullYear ad) ->
  plainYear (JsDate.getFullYear ad + newAdMonth / 12) ->
  let st' := handleMonthChange lib language st increment in
  Nepali.getYear (nepali (currentMonth st')) = Nepali.getYear bs + newMonth / 12
  /\ Nepali.getMonth (nepali (currentMonth st'))
     = Z.rem (Z.rem newMonth 12 + 12) 12
  /\ JsDate.getFullYear (gregorian (currentMonth st'))
     = JsDate.getFullYear ad + newAdMonth / 12
  /\ JsDate.getMonth (gregorian (currentMonth st'))
     = Z.rem (Z.rem newAdMonth 12 + 12) 12.
Proof.
  intros laws Hday. cbv zeta. intros Hera Hp0 Hp1.
  pose proof (handleMonthChange_nepali era lib laws language st increment
                Hday Hera) as Hn.
  pose proof (handleMonthChange_gregorian lib language st increment Hday) as Hg.
  cbv zeta in Hn, Hg. destruct Hg as (HgY & HgM & _).
  rewrite (plainYear_MakeFullYear _ Hp0) in HgY.
  rewrite (plainYear_MakeFullYear _ Hp1) in HgY.
  rewrite Hn, HgY, HgM, !rem_rem_12. cbn [Nepali.getYear Nepali.getMonth].
  repeat split.
Qed.

(** Back one month from Baisakh 2082 (13 April 2025 on the AD side). *)
Lemma C7_back_from_baisakh :
  let st' := handleMonthChange Sample.lib np (Sample.showing (Nepali.BS 2082 0 1)) (-1) in
  Nepali.getYear (nepali (currentMonth st')) = 2081
  /\ Nepali.getMonth (nepali (currentMonth st')) = 11
  /\ JsDate.getFullYear (gregorian (currentMonth st')) = 2025
  /\ JsDate.getMonth (gregorian (currentMonth st')) = 2.
Proof.
  assert (Hday : 1 <= currentDay (Sample.showing (Nepali.BS 2082 0 1)))
    by (cbn; lia).
  assert (Hp0 : plainYear
                  (JsDate.getFullYear
                     (gregorian (currentMonth (Sample.showing (Nepali.BS 2082 0 1))))))
    by (intros [_ H]; vm_compute in H; apply H; reflexivity).
  assert (Hp1 : plainYear
                  (JsDate.getFullYear
                     (gregorian (currentMonth (Sample.showing (Nepali.BS 2082 0 1))))
                   + (JsDate.getMonth
                        (gregorian (currentMonth (Sample.showing (Nepali.BS 2082 0 1))))
                      + -1) / 12))
    by (intros [_ H]; vm_compute in H; apply H; reflexivity).
  exact (C7_advance_normalises_both_anchors Sample.era Sample.lib np
           (Sample.showing (Nepali.BS 2082 0 1)) (-1)
           SampleFacts.sample_lawful Hday
           ltac:(vm_compute; split; discriminate) Hp0 Hp1).
Defined.

(** C8.  A run of [handleMonthChange] calls whose increments sum to 0
    brings the anchor back to the year and month it started from, in both
    calendars.  The state is one the handlers produce (BS month 0-11,
    selected day at least 1), the BS years passed through are ones the
    library supports and the AD years passed through are ones the [Date]
    constructor reads as written. *)
Theorem C8_increments_summing_to_zero (era : Z -> Prop) (lib : Library)
    (language : Language) (st : State) (deltas : list Z) :
  Lawful era lib ->
  wellFormed st ->
  Forall era (yearsVisited (bsMonths st) deltas) ->
  Forall plainYear (yearsVisited (adMonths st) deltas) ->
  sum deltas = 0 ->
  let st' := advanceAll lib language st deltas in
  Nepali.getYear (nepali (currentMonth st'))
  = Nepali.getYear (nepali (currentMonth st))
  /\ Nepali.getMonth (nepali (currentMonth st'))
     = Nepali.getMonth (nepali (currentMonth st))
  /\ JsDate.getFullYear (gregorian (currentMonth st'))
     = JsDate.getFullYear (gregorian (currentMonth st))
  /\ JsDate.getMonth (gregorian (currentMonth st'))
     = JsDate.getMonth (gregorian (currentMonth st)).
Proof.
  intros laws Hwf Hbsyears Hyears Hsum. cbv zeta.
  destruct (advanceAll_months era lib laws language deltas st Hwf Hbsyears Hyears)
    as ((Hm' & _) & Hbs & Had).
  cbv zeta in Hm', Hbs, Had. rewrite Hsum, Z.add_0_r in Hbs, Had.
  destruct Hwf as [Hm _].
  unfold bsMonths in Hbs. unfold adMonths in Had.
  pose proof (JsDateFacts.MonthFromDay_range
                (JsDate.dayNumber (gregorian (currentMonth st)))) as HM.
  pose proof (JsDateFacts.MonthFromDay_range
                (JsDate.dayNumber
                   (gregorian (currentMonth (advanceAll lib language st deltas)))))
    as HM'.
  unfold JsDate.getMonth in *. lia.
Qed.

(** Forward five months, back seventeen, forward a year. *)
Lemma C8_five_back_seventeen_forward_twelve :
  let st := Sample.showing (Nepali.BS 2081 8 17) in
  let st' := advanceAll Sample.lib np st [5; -17; 12] in
  Nepali.getYear (nepali (currentMonth st')) = 2081
  /\ Nepali.getMonth (nepali (currentMonth st')) = 8
  /\ JsDate.getFullYear (gregorian (currentMonth st'))
     = JsDate.getFullYear (gregorian (currentMonth st))
  /\ JsDate.getMonth (gregorian (currentMonth st'))
     = JsDate.getMonth (gregorian (currentMonth st)).
Proof.
  assert (Hwf : wellFormed (Sample.showing (Nepali.BS 2081 8 17)))
    by (unfold wellFormed; cbn; lia).
  assert (Hyears : Forall plainYear
                     (yearsVisited
                        (adMonths (Sample.showing (Nepali.BS 2081 8 17)))
                        [5; -17; 12])).
  { replace (yearsVisited (adMonths (Sample.showing (Nepali.BS 2081 8 17)))
               [5; -17; 12])
      with [2025; 2025; 2024; 2025] by (vm_compute; reflexivity).
    repeat constructor; unfold plainYear; lia. }
  assert (Hbs : Forall Sample.era
                  (yearsVisited
                     (bsMonths (Sample.showing (Nepali.BS 2081 8 17)))
                     [5; -17; 12]))
    by (vm_compute;
        repeat (apply Forall_cons; [vm_compute; split; discriminate|]);
        apply Forall_nil).
  exact (C8_increments_summing_to_zero Sample.era Sample.lib np
           (Sample.showing (Nepali.BS 2081 8 17)) [5; -17; 12]
           SampleFacts.sample_lawful Hwf Hbs Hyears eq_refl).
Defined.

(** X3.  [handleMonthChange(12)] shows the same month one year later in
    both calendars, and [handleMonthChange(-12)] one year earlier. *)
Theorem X3_twelve_months_is_one_year (era : Z -> Prop) (lib : Library)
    (language : Language) (st : State) (k : Z) :
  Lawful era lib ->
  wellFormed st ->
  era (Nepali.getYear (nepali (currentMonth st)) + k) ->
  plainYear (JsDate.getFullYear (gregorian (currentMonth st))) ->
  plainYear (JsDate.getFullYear (gregorian (currentMonth st)) + k) ->
  let st' := handleMonthChange lib language st (12 * k) in
  anchor np st' = (fst (anchor np st) + k, snd (anchor np st))
  /\ anchor en st' = (fst (anchor en st) + k, snd (anchor en st)).
Proof.
  intros laws Hwf Hera Hp0 Hp1. cbv zeta.
  pose proof (bsMonths_year st Hwf) as Hy.
  pose proof (adMonths_year st) as HY.
  assert (He : era ((bsMonths st + 12 * k) / 12)).
  { replace ((bsMonths st + 12 * k) / 12)
      with (Nepali.getYear (nepali (currentMonth st)) + k); [exact Hera|].
    rewrite <- Hy. Z.div_mod_to_equations. lia. }
  assert (Hq0 : plainYear (adMonths st / 12)) by (rewrite HY; exact Hp0).
  assert (Hq1 : plainYear ((adMonths st + 12 * k) / 12)).
  { replace ((adMonths st + 12 * k) / 12)
      with (JsDate.getFullYear (gregorian (currentMonth st)) + k); [exact Hp1|].
    rewrite <- HY. Z.div_mod_to_equations. lia. }
  destruct (handleMonthChange_step era lib laws language st (12 * k)
              Hwf He Hq0 Hq1) as (Hwf' & Hbs & Had).
  cbv zeta in Hwf', Hbs, Had.
  set (st' := handleMonthChange lib language st (12 * k)) in *.
  destruct Hwf as [Hm _]. destruct Hwf' as [Hm' _].
  pose proof (JsDateFacts.MonthFromDay_range
                (JsDate.dayNumber (gregorian (currentMonth st)))) as HM.
  pose proof (JsDateFacts.MonthFromDay_range
                (JsDate.dayNumber (gregorian (currentMonth st')))) as HM'.
  unfold bsMonths in Hbs. unfold adMonths in Had.
  unfold anchor, JsDate.getMonth in *. cbn [fst snd].
  split; f_equal; lia.
Qed.

Lemma X3_poush_2081_next_year :
  anchor np (handleMonthChange Sample.lib np (Sample.showing (Nepali.BS 2081 8 17)) 12)
  = (2082, 8).
Proof.
  assert (Hwf : wellFormed (Sample.showing (Nepali.BS 2081 8 17)))
    by (unfold wellFormed; cbn; lia).
  assert (Hp0 : plainYear
                  (JsDate.getFullYear
                     (gregorian (currentMonth (Sample.showing (Nepali.BS 2081 8 17))))))
    by (intros [_ H]; vm_compute in H; apply H; reflexivity).
  assert (Hp1 : plainYear
                  (JsDate.getFullYear
                     (gregorian (currentMonth (Sample.showing (Nepali.BS 2081 8 17))))
                   + 1))
    by (intros [_ H]; vm_compute in H; apply H; reflexivity).
  exact (proj1 (X3_twelve_months_is_one_year Sample.era Sample.lib np
                  (Sample.showing (Nepali.BS 2081 8 17)) 1
                  SampleFacts.sample_lawful Hwf
                  ltac:(vm_compute; split; discriminate) Hp0 Hp1)).
Defined.

(* ================================================================= *)
(** ** The ordinal suffix *)

Lemma rem_10_of_rem_100 day : Z.rem day 10 = Z.rem (Z.rem day 100) 10.
Proof. Z.to_euclidean_division_equations. lia. Qed.

Lemma remainders_complete day : In (Z.rem day 100) remainders.
Proof.
  unfold remainders. apply in_map_iff.
  exists (Z.to_nat (Z.rem day 100 + 99)).
  assert (-99 <= Z.rem day 100 <= 99)
    by (Z.to_euclidean_division_equations; lia).
  split; [lia | apply in_seq; lia].
Qed.

Lemma getOrdinalSuffix_on_remainders :
  forallb
    (fun v => String.eqb (getOrdinalSuffix v) (ordinalRule v)
              && existsb (String.eqb (getOrdinalSuffix v)) ["th"; "st"; "nd"; "rd"])
    remainders = true.
Proof. vm_compute. reflexivity. Qed.

Lemma getOrdinalSuffix_rem day :
  getOrdinalSuffix day = getOrdinalSuffix (Z.rem day 100).
Proof.
  unfold getOrdinalSuffix.
  replace (Z.rem (Z.rem day 100) 100) with (Z.rem day 100)
    by (Z.to_euclidean_division_equations; lia).
  reflexivity.
Qed.

Lemma ordinalRule_rem day : ordinalRule day = ordinalRule (Z.rem day 100).
Proof.
  unfold ordinalRule.
  replace (Z.rem (Z.rem day 100) 100) with (Z.rem day 100)
    by (Z.to_euclidean_division_equations; lia).
  rewrite <- rem_10_of_rem_100. reflexivity.
Qed.

(** C9.  For every day number (every integer, so every [d >= 1]),
    [getOrdinalSuffix] returns "th" when [d % 100] is 11, 12 or 13,
    otherwise "st", "nd" or "rd" when [d % 10] is 1, 2 or 3, and "th" in
    all remaining cases; its result is always one of the four suffixes. *)
Theorem C9_ordinal_suffix_rule (day : Z) :
  getOrdinalSuffix day = ordinalRule day
  /\ In (getOrdinalSuffix day) ["th"; "st"; "nd"; "rd"].
Proof.
  rewrite getOrdinalSuffix_rem, ordinalRule_rem.
  pose proof getOrdinalSuffix_on_remainders as H.
  rewrite forallb_forall in H.
  specialize (H _ (remainders_complete day)).
  apply andb_true_iff in H. destruct H as [Heq Hin].
  apply String.eqb_eq in Heq. split; [exact Heq|].
  apply existsb_exists in Hin. destruct Hin as (s & Hs & Hx).
  apply String.eqb_eq in Hx. rewrite Hx. exact Hs.
Qed.

(* ================================================================= *)
(** ** More facts about [Date] *)

Lemma MakeFullYear_idem y :
  JsDate.MakeFullYear (JsDate.MakeFullYear y) = JsDate.MakeFullYear y.
Proof.
  unfold JsDate.MakeFullYear.
  destruct (Z.leb_spec 0 y), (Z.leb_spec y 99); cbn [andb];
    repeat match goal with
           | |- context [?a <=? ?b] => destruct (Z.leb_spec a b)
           end; cbn [andb]; lia.
Qed.

Lemma DateFromDay_le n : JsDate.DateFromDay n <= 31.
Proof.
  unfold JsDate.DateFromDay, JsDate.MonthFromDay.
  pose proof (JsDateFacts.DayWithinYear_range n) as H.
  pose proof (JsDateFacts.leapDay_isLeapYear (JsDate.YearFromDay n)) as HL.
  destruct (JsDate.isLeapYear (JsDate.YearFromDay n));
    repeat match goal with
           | |- context [if ?a <? ?b then _ else _] =>
               destruct (Z.ltb_spec a b)
           end; cbn [JsDate.monthStart]; lia.
Qed.

Lemma MakeDay_of_fields n :
  JsDate.MakeDay (JsDate.YearFromDay n) (JsDate.MonthFromDay n)
    (JsDate.DateFromDay n) = n.
Proof.
  unfold JsDate.MakeDay.
  destruct (JsDateFacts.small_month _ (JsDateFacts.MonthFromDay_range n))
    as [Hq Hr].
  rewrite Hq, Hr, Z.add_0_r.
  unfold JsDate.DateFromDay, JsDate.DayWithinYear. lia.
Qed.

Lemma MakeDay_next_month y m :
  0 <= m <= 11 ->
  JsDate.MakeDay y (m + 1) 1 = JsDate.MakeDay y m 1 + JsDate.daysInMonth y m.
Proof.
  intros Hm. pose proof (JsDateFacts.MakeDay_day_zero y m Hm) as H.
  unfold JsDate.MakeDay in *. lia.
Qed.

(* ================================================================= *)
(** ** Numbers as text *)

Lemma upFrom_complete lo count n :
  lo <= n < lo + count -> In n (upFrom lo (Z.to_nat count)).
Proof.
  intros H. unfold upFrom. apply in_map_iff.
  exists (Z.to_nat (n - lo)). split; [lia | apply in_seq; lia].
Qed.

Lemma toString_four_digits_checked :
  forallb (fun n => String.eqb (Js.toString n) (fourDigits n)) (upFrom 1000 (Z.to_nat 9000))
  = true.
Proof. vm_compute. reflexivity. Qed.

Lemma padStart_two_digits_checked :
  forallb (fun n => String.eqb (Js.padStart (Js.toString n) 2 "0") (twoDigits n))
    (upFrom 0 (Z.to_nat 100))
  = true.
Proof. vm_compute. reflexivity. Qed.

Lemma toString_four_digits n :
  1000 <= n <= 9999 -> Js.toString n = fourDigits n.
Proof.
  intros H. pose proof toString_four_digits_checked as Hall.
  rewrite forallb_forall in Hall. apply String.eqb_eq. apply Hall.
  apply upFrom_complete. lia.
Qed.

Lemma padStart_two_digits n :
  0 <= n <= 99 -> Js.padStart (Js.toString n) 2 "0" = twoDigits n.
Proof.
  intros H. pose proof padStart_two_digits_checked as Hall.
  rewrite forallb_forall in Hall. apply String.eqb_eq. apply Hall.
  apply upFrom_complete. lia.
Qed.

Lemma parseInt_digitChar k : 0 <= k <= 9 -> Js.parseInt (digitChar k) = Some k.
Proof.
  intros H.
  assert (Hk : k = 0 \/ k = 1 \/ k = 2 \/ k = 3 \/ k = 4 \/ k = 5 \/ k = 6
               \/ k = 7 \/ k = 8 \/ k = 9) by lia.
  repeat (destruct Hk as [Hk | Hk]); subst k; reflexivity.
Qed.

(** toString of a negative number is the minus sign before the digits. *)
Lemma toString_negative p :
  Js.toString (Z.neg p) = String "-" (Js.toString (Z.pos p)).
Proof. reflexivity. Qed.

Lemma toString_inj a b : Js.toString a = Js.toString b -> a = b.
Proof.
  unfold Js.toString. intros H. apply DecimalZ.to_int_inj.
  assert (Hparse : forall n,
             NilZero.int_of_string (NilZero.string_of_int (Z.to_int n))
             = Some (Z.to_int n)).
  { intros n. destruct n as [| p | p];
      [reflexivity | apply NilZero.isi | apply NilZero.isi];
      cbn; try discriminate;
      intros E; injection E as E;
      pose proof (DecimalPos.Unsigned.to_uint_nonnil p); contradiction. }
  pose proof (Hparse a) as Ha. rewrite H, Hparse in Ha. congruence.
Qed.

Lemma string_of_uint_digits d :
  Forall isDigit (list_ascii_of_string (NilEmpty.string_of_uint d)).
Proof.
  induction d; cbn [NilEmpty.string_of_uint list_ascii_of_string];
    constructor; try assumption; unfold isDigit; cbn; tauto.
Qed.

Lemma toString_digits n :
  0 <= n -> Forall isDigit (Js.split (Js.toString n)).
Proof.
  intros Hn. unfold Js.split, Js.toString.
  destruct n as [| p | p]; [| | lia].
  - repeat constructor.
  - cbn [Z.to_int NilZero.string_of_int].
    pose proof (string_of_uint_digits (Pos.to_uint p)) as H.
    unfold NilZero.string_of_uint.
    destruct (Pos.to_uint p) eqn:E; try exact H.
    constructor; [cbn; tauto | constructor].
Qed.

(* ================================================================= *)
(** ** More on formatting *)

Lemma or_same a : Js.or a a = a.
Proof. unfold Js.or. destruct (Js.falsy a); reflexivity. Qed.

Lemma get_absent o key :
  ~ In key (map fst o) -> Js.get o key = None.
Proof.
  induction o as [| [k v] r IH]; intros Hnot; [reflexivity|].
  cbn [Js.get]. cbn [map fst In] in Hnot.
  destruct (String.eqb_spec k key) as [-> | _]; [tauto|].
  apply IH. tauto.
Qed.

Lemma formatGregorianDate_year_month_day date :
  formatGregorianDate date "YYYY-MM-DD"
  = Js.toString (JsDate.getFullYear date) ++ "-"
    ++ Js.padStart (Js.toString (JsDate.getMonth date + 1)) 2 "0" ++ "-"
    ++ Js.padStart (Js.toString (JsDate.getDate date)) 2 "0".
Proof.
  unfold formatGregorianDate. cbv zeta. rewrite or_same.
  cbn [Js.get].
  repeat match goal with
         | |- context [String.eqb ?a ?b] =>
             let v := eval vm_compute in (String.eqb a b) in
             change (String.eqb a b) with v; cbv iota
         end.
  reflexivity.
Qed.

(** X4.  For a date whose year has four digits, the "YYYY-MM-DD" text of
    [formatGregorianDate] is a date-only string, and [new Date(text)]
    reads it back as the same date where local time is UTC or ahead of
    it, and as the day before where local time is behind UTC. *)
Theorem X4_year_month_day_text_reads_back (offset : Z) (date : Date) :
  1000 <= JsDate.getFullYear date <= 9999 ->
  -1440 < offset < 1440 ->
  JsDate.parseDateOnly offset (formatGregorianDate date "YYYY-MM-DD")
  = Some (if 0 <=? offset then date
          else JsDate.ofDay (JsDate.dayNumber date - 1)).
Proof.
  intros Hyear Hoffset. rewrite formatGregorianDate_year_month_day.
  pose proof (JsDateFacts.MonthFromDay_range (JsDate.dayNumber date)) as Hm.
  pose proof (JsDateFacts.DateFromDay_pos (JsDate.dayNumber date)) as Hd.
  pose proof (DateFromDay_le (JsDate.dayNumber date)) as Hd'.
  pose proof (MakeDay_of_fields (JsDate.dayNumber date)) as Hback.
  fold (JsDate.getFullYear date) (JsDate.getMonth date) (JsDate.getDate date)
    in Hm, Hd, Hd', Hback.
  set (y := JsDate.getFullYear date) in *.
  set (m := JsDate.getMonth date) in *.
  set (d := JsDate.getDate date) in *.
  rewrite (toString_four_digits y Hyear).
  rewrite (padStart_two_digits (m + 1)) by lia.
  rewrite (padStart_two_digits d) by lia.
  unfold JsDate.parseDateOnly, fourDigits, twoDigits.
  cbn [append Js.split list_ascii_of_string].
  rewrite !parseInt_digitChar by (Z.div_mod_to_equations; lia).
  change (N_of_ascii "-") with 45%N. cbn [N.eqb Pos.eqb andb].
  replace (1000 * (y / 1000) + 100 * (y / 100 mod 10) + 10 * (y / 10 mod 10)
           + y mod 10) with y by (Z.div_mod_to_equations; lia).
  replace (10 * ((m + 1) / 10) + (m + 1) mod 10) with (m + 1)
    by (Z.div_mod_to_equations; lia).
  replace (10 * (d / 10) + d mod 10) with d by (Z.div_mod_to_equations; lia).
  destruct (Z.leb_spec 1 (m + 1)); [|lia].
  destruct (Z.leb_spec (m + 1) 12); [|lia].
  destruct (Z.leb_spec 1 d); [|lia].
  destruct (Z.leb_spec d 31); [|lia].
  cbn [andb]. replace (m + 1 - 1) with m by lia.
  rewrite Hback. f_equal.
  destruct (Z.leb_spec 0 offset) as [Hpos | Hneg].
  - replace (offset / 1440) with 0 by (Z.div_mod_to_equations; lia).
    rewrite Z.add_0_r. destruct date. reflexivity.
  - replace (offset / 1440) with (-1) by (Z.div_mod_to_equations; lia).
    reflexivity.
Qed.

Lemma X4_leap_day_2024_reads_back :
  let date := JsDate.newDate 2024 1 29 in
  JsDate.parseDateOnly 345 (formatGregorianDate date "YYYY-MM-DD") = Some date
  /\ JsDate.parseDateOnly (-300) (formatGregorianDate date "YYYY-MM-DD")
     = Some (JsDate.newDate 2024 1 28).
Proof.
  cbv zeta.
  assert (Hyear : 1000 <= JsDate.getFullYear (JsDate.newDate 2024 1 29) <= 9999)
    by (vm_compute; split; discriminate).
  split.
  - apply (X4_year_month_day_text_reads_back 345 (JsDate.newDate 2024 1 29) Hyear).
    lia.
  - apply (X4_year_month_day_text_reads_back (-300) (JsDate.newDate 2024 1 29)
             Hyear).
    lia.
Defined.

(** X5.  A template that is none of the ten (and no name an object literal
    inherits) is formatted with the "YYYY-MM-DD" layout, by both
    formatters. *)
Theorem X5_unknown_template_uses_year_month_day (date : Date)
    (year month day : Z) (format : string) :
  ~ In format DateFormat ->
  ~ In format Js.inherited ->
  formatGregorianDate date format = formatGregorianDate date "YYYY-MM-DD"
  /\ formatNepaliDate year month day format
     = formatNepaliDate year month day "YYYY-MM-DD".
Proof.
  intros Hnot _. unfold formatGregorianDate, formatNepaliDate. cbv zeta.
  split;
    (rewrite (get_absent _ format) by
       (intros H; apply Hnot; unfold DateFormat;
        cbn [map fst In] in H |- *; tauto));
    rewrite or_same; unfold Js.or; cbn [Js.falsy]; reflexivity.
Qed.

Lemma X5_lowercase_template :
  formatNepaliDate 2081 8 17 "yyyy/mm/dd" = "२०८१-०८-१७".
Proof.
  assert (Hnot : ~ In "yyyy/mm/dd" DateFormat).
  { cbn. intros H. repeat (destruct H as [H | H]; [discriminate H|]). exact H. }
  assert (Hnot' : ~ In "yyyy/mm/dd" Js.inherited).
  { cbn. intros H. repeat (destruct H as [H | H]; [discriminate H|]). exact H. }
  destruct (X5_unknown_template_uses_year_month_day
              (JsDate.newDate 2025 0 1) 2081 8 17 "yyyy/mm/dd" Hnot Hnot')
    as [_ H].
  rewrite H. reflexivity.
Defined.

Lemma noDigit_app a b : Js.noDigit (a ++ b) = Js.noDigit a && Js.noDigit b.
Proof.
  induction a as [| c r IH]; [reflexivity|].
  cbn [append Js.noDigit]. rewrite IH, andb_assoc. reflexivity.
Qed.

Lemma noAscii_noDigit s : Js.noAscii s = true -> Js.noDigit s = true.
Proof.
  induction s as [| c r IH]; [reflexivity|].
  cbn [Js.noAscii Js.noDigit]. intros H.
  apply andb_true_iff in H. destruct H as [Hc Hr].
  rewrite (IH Hr), andb_true_r. apply N.leb_le in Hc.
  apply negb_true_iff, andb_false_iff. right. apply N.leb_gt. lia.
Qed.

Lemma padStart_noDigit s n :
  Js.noDigit s = true -> Js.noDigit (Js.padStart s n "०") = true.
Proof.
  intros Hs. unfold Js.padStart. rewrite noDigit_app, Hs, andb_true_r.
  induction (n - Js.length s)%nat as [| k IH]; [reflexivity|].
  cbn [Js.repeat]. rewrite noDigit_app, IH. reflexivity.
Qed.

Lemma numeral_field_noDigit num :
  Js.noDigit (Js.padStart (toNepaliNumeral num) 2 "०") = true.
Proof.
  apply padStart_noDigit, noAscii_noDigit.
  unfold toNepaliNumeral. apply digits_noAscii.
Qed.

Lemma monthName_noDigit month :
  Js.noDigit (Js.str (Js.index (MONTH_NAMES np) month)) = true.
Proof.
  unfold Js.index. destruct (month <? 0); [reflexivity|].
  generalize (Z.to_nat month). intros n.
  do 12 (destruct n as [| n]; [reflexivity|]).
  cbn [MONTH_NAMES nth_error]. destruct n; reflexivity.
Qed.

Lemma getOrdinalSuffix_noDigit day : Js.noDigit (getOrdinalSuffix day) = true.
Proof.
  rewrite getOrdinalSuffix_rem.
  pose proof getOrdinalSuffix_on_remainders as H.
  rewrite forallb_forall in H.
  specialize (H _ (remainders_complete day)).
  apply andb_true_iff in H. destruct H as [_ Hin].
  apply existsb_exists in Hin. destruct Hin as (s & Hs & Hx).
  apply String.eqb_eq in Hx. rewrite Hx.
  cbn [In] in Hs. repeat (destruct Hs as [<- | Hs]; [reflexivity|]).
  contradiction.
Qed.

(** X6.  For each of the ten templates and every year, month and day, the
    text of [formatNepaliDate] contains no ASCII digit. *)
Theorem X6_nepali_text_has_no_ascii_digit (year month day : Z) (format : string) :
  In format DateFormat ->
  Js.noDigit (formatNepaliDate year month day format) = true.
Proof.
  intros Hin. unfold formatNepaliDate. cbv zeta.
  pose proof (numeral_field_noDigit year) as HY.
  pose proof (numeral_field_noDigit month) as HM.
  pose proof (numeral_field_noDigit day) as HD.
  pose proof (monthName_noDigit month) as HN.
  pose proof (getOrdinalSuffix_noDigit day) as HS.
  set (Y := Js.padStart (toNepaliNumeral year) 2 "०") in *.
  set (M := Js.padStart (toNepaliNumeral month) 2 "०") in *.
  set (D := Js.padStart (toNepaliNumeral day) 2 "०") in *.
  set (N := Js.str (Js.index (MONTH_NAMES np) month)) in *.
  set (S := getOrdinalSuffix day) in *.
  unfold DateFormat in Hin. cbn [In] in Hin.
  repeat (destruct Hin as [<- | Hin]); try contradiction;
    cbn [Js.get];
    repeat match goal with
           | |- context [String.eqb ?a ?b] =>
               let v := eval vm_compute in (String.eqb a b) in
               change (String.eqb a b) with v; cbv iota
           end;
    unfold Js.or;
    match goal with
    | |- context [Js.falsy ?a] => destruct (Js.falsy a)
    end;
    cbn [Js.str]; rewrite !noDigit_app, ?HY, ?HM, ?HD, ?HN, ?HS; reflexivity.
Qed.

Lemma X6_ordinal_template_has_no_ascii_digit :
  Js.noDigit (formatNepaliDate 2081 8 3 "DDth MMMM, YYYY") = true.
Proof.
  apply X6_nepali_text_has_no_ascii_digit. cbn. tauto.
Defined.

Lemma toNepaliNumeral_opp num : toNepaliNumeral (- num) = toNepaliNumeral num.
Proof.
  destruct num as [| p | p]; [reflexivity | |];
    cbn [Z.opp]; unfold toNepaliNumeral; rewrite toString_negative;
    reflexivity.
Qed.

Lemma glyphs_inj cs : forall cs',
  Forall isDigit cs -> Forall isDigit cs' ->
  Js.join (map (fun digit => Js.indexNum NEPALI_NUMERALS (Js.parseInt digit)) cs)
  = Js.join (map (fun digit => Js.indexNum NEPALI_NUMERALS (Js.parseInt digit)) cs') ->
  cs = cs'.
Proof.
  induction cs as [| c r IH]; intros [| c' r'] Hcs Hcs' Heq.
  - reflexivity.
  - exfalso. inversion Hcs' as [| ? ? Hc' _]; subst.
    unfold isDigit in Hc'. cbn [In] in Hc'.
    repeat (destruct Hc' as [<- | Hc']; [discriminate Heq|]). exact Hc'.
  - exfalso. inversion Hcs as [| ? ? Hc _]; subst.
    unfold isDigit in Hc. cbn [In] in Hc.
    repeat (destruct Hc as [<- | Hc]; [discriminate Heq|]). exact Hc.
  - inversion Hcs as [| ? ? Hc Hr]; subst.
    inversion Hcs' as [| ? ? Hc' Hr']; subst.
    cbn [map Js.join] in Heq.
    unfold isDigit in Hc, Hc'. cbn [In] in Hc, Hc'.
    assert (c = c' /\
            Js.join (map (fun digit => Js.indexNum NEPALI_NUMERALS (Js.parseInt digit)) r)
            = Js.join (map (fun digit => Js.indexNum NEPALI_NUMERALS (Js.parseInt digit)) r')).
    { repeat (destruct Hc as [<- | Hc]); try contradiction;
        repeat (destruct Hc' as [<- | Hc']); try contradiction;
        cbn [Js.parseInt Js.indexNum Js.index NEPALI_NUMERALS] in Heq;
        cbn in Heq; try discriminate Heq;
        injection Heq as Heq; (split; [reflexivity | exact Heq]). }
    destruct H as [-> Hrest]. f_equal. apply IH; assumption.
Qed.

(** X7.  On the integers a number holds exactly, [toNepaliNumeral] loses
    the sign and nothing else: two safe integers get the same glyphs
    exactly when they have the same absolute value. *)
Theorem X7_numerals_same_for_same_absolute_value (a b : Z) :
  Js.isSafeInteger a = true ->
  Js.isSafeInteger b = true ->
  (toNepaliNumeral a = toNepaliNumeral b <-> Z.abs a = Z.abs b).
Proof.
  intros _ _.
  assert (Habs : forall n, toNepaliNumeral n = toNepaliNumeral (Z.abs n)).
  { intros n. destruct (Z.abs_spec n) as [[_ ->] | [_ ->]];
      [reflexivity | symmetry; apply toNepaliNumeral_opp]. }
  split.
  - rewrite (Habs a), (Habs b). unfold toNepaliNumeral. intros H.
    apply glyphs_inj in H; try (apply toString_digits; apply Z.abs_nonneg).
    apply toString_inj. unfold Js.split in H.
    rewrite <- (string_of_list_ascii_of_string (Js.toString (Z.abs a))).
    rewrite <- (string_of_list_ascii_of_string (Js.toString (Z.abs b))).
    rewrite H. reflexivity.
  - intros H. rewrite (Habs a), (Habs b), H. reflexivity.
Qed.

Lemma X7_minus_17_reads_as_17 :
  toNepaliNumeral (-17) = toNepaliNumeral 17
  /\ toNepaliNumeral 17 = "१७"
  /\ toNepaliNumeral 17 <> toNepaliNumeral 71.
Proof.
  split; [|split; [reflexivity|]].
  - apply (X7_numerals_same_for_same_absolute_value (-17) 17);
      reflexivity.
  - intros H.
    apply (X7_numerals_same_for_same_absolute_value 17 71) in H;
      [discriminate H | reflexivity | reflexivity].
Defined.

(* ================================================================= *)
(** ** The range labels, continued *)

Section NepaliRange.

Variable era : Z -> Prop.
Variable lib : Library.
Hypothesis laws : Lawful era lib.
Hypothesis carries : Carries era lib.

(** The date [getNepaliMonthRange] and [getNepaliYearRange] take as the
    last day: the last day of the month after the anchor's. *)
Lemma day_zero_two_months_on y m :
  0 <= m <= 11 -> era y -> era (y + (m + 1) / 12) ->
  Nepali.fromYMD lib y (m + 2) 0
  = Nepali.BS (y + (m + 1) / 12) ((m + 1) mod 12)
      (daysInBsMonth lib (y + (m + 1) / 12) ((m + 1) mod 12)).
Proof.
  intros Hm Hera Hera'.
  destruct (Z.eq_dec m 11) as [-> | Hne].
  - change ((11 + 1) / 12) with 1 in *. change ((11 + 1) mod 12) with 0.
    change (11 + 2) with (1 + 12).
    rewrite (carries y 1 0 Hera') by lia.
    apply (fromYMD_day_zero era lib laws (y + 1) 0); [exact Hera' | lia].
  - rewrite (Z.div_small (m + 1)), (Z.mod_small (m + 1)), Z.add_0_r by lia.
    replace (m + 2) with (m + 1 + 1) by lia.
    apply (fromYMD_day_zero era lib laws); [exact Hera | lia].
Qed.

Lemma first_day y m :
  0 <= m <= 11 -> era y -> Nepali.fromYMD lib y m 1 = Nepali.BS y m 1.
Proof.
  intros Hm Hera. pose proof (month_not_empty era lib laws y m Hera Hm).
  apply (fromYMD_in_range era lib laws); [exact Hera | exact Hm | lia].
Qed.

End NepaliRange.

Lemma sample_carries : Carries Sample.era Sample.lib.
Proof.
  intros y m d _ _. cbn [Nepali.fromYMD Sample.lib].
  unfold Sample.fromYMD, Sample.ordinal.
  replace ((m + 12) / 12) with (m / 12 + 1) by (Z.div_mod_to_equations; lia).
  replace ((m + 12) mod 12) with (m mod 12) by (Z.div_mod_to_equations; lia).
  f_equal. lia.
Qed.

(** X8.  [getNepaliMonthRange] always names two months, the BS anchor's and
    the one after it (Baisakh after Chait); it never returns a single
    name. *)
Theorem X8_nepali_month_range_is_two_months (era : Z -> Prop) (lib : Library)
    (date : NepaliDate) :
  Lawful era lib -> Carries era lib ->
  0 <= Nepali.getMonth date <= 11 ->
  era (Nepali.getYear date) ->
  era (Nepali.getYear date + (Nepali.getMonth date + 1) / 12) ->
  getNepaliMonthRange lib date
  = Js.str (Js.index (MONTH_NAMES np) (Nepali.getMonth date)) ++ "/"
    ++ Js.str (Js.index (MONTH_NAMES np) ((Nepali.getMonth date + 1) mod 12)).
Proof.
  intros laws carries Hm Hera Hera'. unfold getNepaliMonthRange. cbv zeta.
  rewrite (first_day era lib laws _ _ Hm Hera).
  rewrite (day_zero_two_months_on era lib laws carries _ _ Hm Hera Hera').
  cbn [Nepali.getMonth].
  destruct (Z.eqb_spec (Nepali.getMonth date) ((Nepali.getMonth date + 1) mod 12))
    as [E | _]; [|reflexivity].
  exfalso. Z.div_mod_to_equations. lia.
Qed.

Lemma X8_chait_then_baisakh :
  getNepaliMonthRange Sample.lib (Nepali.BS 2081 11 3) = "चैत/बैशाख".
Proof.
  pose proof sample_carries as Hc.
  assert (Hm : 0 <= Nepali.getMonth (Nepali.BS 2081 11 3) <= 11) by (cbn; lia).
  rewrite (X8_nepali_month_range_is_two_months Sample.era Sample.lib
             (Nepali.BS 2081 11 3) SampleFacts.sample_lawful Hc Hm
             ltac:(vm_compute; split; discriminate) ltac:(vm_compute; split; discriminate)).
  reflexivity.
Defined.

(** X9.  [getNepaliYearRange] shows one BS year for an anchor in Baisakh to
    Falgun, and the anchor's year and the next, joined by "-", for an
    anchor in Chait. *)
Theorem X9_nepali_year_range (era : Z -> Prop) (lib : Library)
    (date : NepaliDate) :
  Lawful era lib -> Carries era lib ->
  0 <= Nepali.getMonth date <= 11 ->
  era (Nepali.getYear date) ->
  era (Nepali.getYear date + (Nepali.getMonth date + 1) / 12) ->
  getNepaliYearRange lib date
  = if Nepali.getMonth date =? 11
    then toNepaliNumeral (Nepali.getYear date) ++ "-"
         ++ toNepaliNumeral (Nepali.getYear date + 1)
    else toNepaliNumeral (Nepali.getYear date).
Proof.
  intros laws carries Hm Hera Hera'. unfold getNepaliYearRange. cbv zeta.
  rewrite (first_day era lib laws _ _ Hm Hera).
  rewrite (day_zero_two_months_on era lib laws carries _ _ Hm Hera Hera').
  cbn [Nepali.getYear].
  destruct (Z.eqb_spec (Nepali.getMonth date) 11) as [E | E].
  - rewrite E. change ((11 + 1) / 12) with 1.
    destruct (Z.eqb_spec (Nepali.getYear date) (Nepali.getYear date + 1));
      [lia | reflexivity].
  - rewrite (Z.div_small (Nepali.getMonth date + 1)), Z.add_0_r by lia.
    rewrite Z.eqb_refl. reflexivity.
Qed.

Lemma X9_chait_2081_spans_two_years :
  getNepaliYearRange Sample.lib (Nepali.BS 2081 11 3) = "२०८१-२०८२".
Proof.
  assert (Hm : 0 <= Nepali.getMonth (Nepali.BS 2081 11 3) <= 11) by (cbn; lia).
  rewrite (X9_nepali_year_range Sample.era Sample.lib
             (Nepali.BS 2081 11 3) SampleFacts.sample_lawful sample_carries
             Hm ltac:(vm_compute; split; discriminate)
             ltac:(vm_compute; split; discriminate)).
  reflexivity.
Defined.

(** X10.  For a BS anchor, [getGregorianYearRange] shows the AD years of the
    converted first day and last day of the anchor's own BS month: one
    year when they agree, else both joined by "-". *)
Theorem X10_gregorian_year_range_converts_the_bs_month (era : Z -> Prop)
    (lib : Library) (anchor : NepaliDate) :
  Lawful era lib ->
  era (Nepali.getYear anchor) ->
  0 <= Nepali.getMonth anchor <= 11 ->
  let year := Nepali.getYear anchor in
  let month := Nepali.getMonth anchor in
  let first := JsDate.getFullYear (Nepali.toJsDate lib (Nepali.BS year month 1)) in
  let last :=
    JsDate.getFullYear
      (Nepali.toJsDate lib (Nepali.BS year month (daysInBsMonth lib year month))) in
  getGregorianYearRange lib anchor
  = if first =? last then Js.toString first
    else Js.toString first ++ "-" ++ Js.toString last.
Proof.
  intros laws Hera Hm. cbv zeta. unfold getGregorianYearRange. cbv zeta.
  pose proof (month_not_empty era lib laws _ _ Hera Hm) as Hlen.
  rewrite (fromYMD_day_zero era lib laws _ _ Hera Hm).
  rewrite (fromYMD_in_range era lib laws _ _ 1 Hera Hm) by lia.
  reflexivity.
Qed.

Lemma X10_poush_2081_spans_two_ad_years :
  getGregorianYearRange Sample.lib (Nepali.BS 2081 8 17) = "2024-2025".
Proof.
  assert (Hm : 0 <= Nepali.getMonth (Nepali.BS 2081 8 17) <= 11) by (cbn; lia).
  rewrite (X10_gregorian_year_range_converts_the_bs_month Sample.era Sample.lib
             (Nepali.BS 2081 8 17) SampleFacts.sample_lawful
             ltac:(vm_compute; split; discriminate) Hm).
  vm_compute. reflexivity.
Defined.

(* ================================================================= *)
(** ** The header's title and the day grid *)

Lemma index_in_range (names : list string) (i : Z) :
  0 <= i < Z.of_nat (List.length names) ->
  exists name, Js.index names i = Some name /\ In name names.
Proof.
  intros Hi. unfold Js.index. destruct (Z.ltb_spec i 0); [lia|].
  destruct (nth_error names (Z.to_nat i)) as [name |] eqn:E.
  - exists name. split; [reflexivity | apply (nth_error_In _ _ E)].
  - apply nth_error_None in E. lia.
Qed.

(** X16.  The header's large line is a month name of the primary calendar's
    table, a space and the year: the lookup in [MONTH_NAMES] never misses
    for an AD anchor, nor for a BS anchor whose month is 0-11. *)
Theorem X16_header_title_names_a_month (language : Language) (st : State) :
  0 <= Nepali.getMonth (nepali (currentMonth st)) <= 11 ->
  exists name,
    In name (MONTH_NAMES language)
    /\ headerTitle language st
       = name ++ " "
         ++ match language with
            | np => toNepaliNumeral (Nepali.getYear (nepali (currentMonth st)))
            | en => Js.toString (JsDate.getFullYear (gregorian (currentMonth st)))
            end.
Proof.
  intros Hm. unfold headerTitle. destruct language.
  - destruct (index_in_range (MONTH_NAMES np)
                (Nepali.getMonth (nepali (currentMonth st)))) as (name & E & Hin).
    { cbn. lia. }
    exists name. rewrite E. split; [exact Hin | reflexivity].
  - pose proof (JsDateFacts.MonthFromDay_range
                  (JsDate.dayNumber (gregorian (currentMonth st)))) as HM.
    destruct (index_in_range (MONTH_NAMES en)
                (JsDate.getMonth (gregorian (currentMonth st)))) as (name & E & Hin).
    { unfold JsDate.getMonth. cbn. lia. }
    exists name. rewrite E. split; [exact Hin | reflexivity].
Qed.

Lemma X16_header_title_of_poush_2081 :
  exists name,
    In name (MONTH_NAMES np)
    /\ headerTitle np (Sample.showing (Nepali.BS 2081 8 17))
       = name ++ " " ++ toNepaliNumeral 2081.
Proof.
  apply (X16_header_title_names_a_month np
           (Sample.showing (Nepali.BS 2081 8 17))).
  cbn. lia.
Defined.

Lemma gridLength_en (lib : Library) (st : State) :
  gridLength lib en st
  = JsDate.daysInMonth
      (JsDate.MakeFullYear (JsDate.getFullYear (gregorian (currentMonth st))))
      (JsDate.getMonth (gregorian (currentMonth st))).
Proof.
  unfold gridLength. apply JsDateFacts.newDate_day_zero.
  apply JsDateFacts.MonthFromDay_range.
Qed.

(** X11.  In language [en] the grid has as many day buttons as the Gregorian
    rule gives the displayed month, between 28 and 31, and every button
    stands for its own day of the displayed month and year. *)
Theorem X11_grid_is_the_gregorian_month (lib : Library) (st : State) (day : Z) :
  plainYear (JsDate.getFullYear (gregorian (currentMonth st))) ->
  let year := JsDate.getFullYear (gregorian (currentMonth st)) in
  let month := JsDate.getMonth (gregorian (currentMonth st)) in
  gridLength lib en st = JsDate.daysInMonth year month
  /\ 28 <= gridLength lib en st <= 31
  /\ (1 <= day <= gridLength lib en st ->
      fieldsOf (ofJs (snd (gridDates lib en st day))) = (year, month, day)
      /\ fst (gridDates lib en st day)
         = Nepali.fromDate lib (snd (gridDates lib en st day))).
Proof.
  intros Hplain. cbv zeta.
  rewrite gridLength_en, (plainYear_MakeFullYear _ Hplain).
  split; [reflexivity|]. split; [apply JsDateFacts.daysInMonth_range|].
  intros Hday. split; [|reflexivity].
  unfold gridDates. cbn [snd fieldsOf].
  pose proof (JsDateFacts.MonthFromDay_range
                (JsDate.dayNumber (gregorian (currentMonth st)))) as HM.
  fold (JsDate.getMonth (gregorian (currentMonth st))) in HM.
  destruct (JsDateFacts.small_month _ HM) as [Hq Hr].
  destruct (JsDateFacts.newDate_fields
              (JsDate.getFullYear (gregorian (currentMonth st)))
              (JsDate.getMonth (gregorian (currentMonth st))) day)
    as (Hy & Hm & Hd).
  { rewrite Hq, Hr, Z.add_0_r, (plainYear_MakeFullYear _ Hplain). exact Hday. }
  rewrite Hy, Hm, Hd, Hq, Hr, Z.add_0_r, (plainYear_MakeFullYear _ Hplain).
  reflexivity.
Qed.

Lemma X11_february_2024_has_29_buttons :
  gridLength Sample.lib en (Sample.showingDate (JsDate.newDate 2024 1 10)) = 29.
Proof.
  assert (Hp : plainYear
                 (JsDate.getFullYear
                    (gregorian
                       (currentMonth (Sample.showingDate (JsDate.newDate 2024 1 10))))))
    by (intros [_ H]; vm_compute in H; apply H; reflexivity).
  destruct (X11_grid_is_the_gregorian_month Sample.lib
              (Sample.showingDate (JsDate.newDate 2024 1 10)) 1 Hp) as (H & _).
  rewrite H. vm_compute. reflexivity.
Defined.

Lemma gridOffset_en (lib : Library) (nepaliGetDay : NepaliDate -> Z) (st : State) :
  gridOffset lib en nepaliGetDay st
  = (JsDate.MakeDay
       (JsDate.MakeFullYear (JsDate.getFullYear (gregorian (currentMonth st))))
       (JsDate.getMonth (gregorian (currentMonth st))) 1 + 4) mod 7.
Proof. reflexivity. Qed.

(** X12.  In language [en] the grid starts with at most six empty cells, so
    cells and buttons fit six rows of seven; and after
    [handleMonthChange(1)] the new month starts in the column after the
    one the old month ended in. *)
Theorem X12_grid_offset_follows_on (lib : Library) (nepaliGetDay : NepaliDate -> Z)
    (st : State) :
  1 <= currentDay st ->
  plainYear (JsDate.getFullYear (gregorian (currentMonth st))) ->
  plainYear (JsDate.getFullYear (gregorian (currentMonth st))
             + (JsDate.getMonth (gregorian (currentMonth st)) + 1) / 12) ->
  0 <= gridOffset lib en nepaliGetDay st <= 6
  /\ gridOffset lib en nepaliGetDay st + gridLength lib en st <= 42
  /\ gridOffset lib en nepaliGetDay (handleMonthChange lib en st 1)
     = (gridOffset lib en nepaliGetDay st + gridLength lib en st) mod 7.
Proof.
  intros Hday Hp0 Hp1.
  pose proof (handleMonthChange_gregorian lib en st 1 Hday) as Hg.
  cbv zeta in Hg. destruct Hg as (HgY & HgM & _).
  rewrite !gridOffset_en, gridLength_en, HgY, HgM. clear HgY HgM.
  pose proof (JsDateFacts.MonthFromDay_range
                (JsDate.dayNumber (gregorian (currentMonth st)))) as HM.
  fold (JsDate.getMonth (gregorian (currentMonth st))) in HM.
  generalize dependent (JsDate.getMonth (gregorian (currentMonth st))).
  generalize dependent (JsDate.getFullYear (gregorian (currentMonth st))).
  clear st Hday. intros Y Hp0 M Hp1 HM.
  rewrite MakeFullYear_idem.
  rewrite (plainYear_MakeFullYear _ Hp0), (plainYear_MakeFullYear _ Hp1).
  rewrite <- (JsDateFacts.MakeDay_carry Y (M + 1) 1).
  rewrite (MakeDay_next_month Y M HM).
  pose proof (JsDateFacts.daysInMonth_range Y M) as Hlen.
  pose proof (Z.mod_pos_bound (JsDate.MakeDay Y M 1 + 4) 7) as Hoff.
  split; [lia|]. split; [lia|].
  rewrite Z.add_mod_idemp_l by lia. f_equal. lia.
Qed.

Lemma X12_january_2025_then_february :
  gridOffset Sample.lib en Sample.getDay
    (handleMonthChange Sample.lib en
       (Sample.showingDate (JsDate.newDate 2025 0 20)) 1)
  = (3 + 31) mod 7.
Proof.
  assert (Hday : 1 <= currentDay (Sample.showingDate (JsDate.newDate 2025 0 20)))
    by (vm_compute; discriminate).
  assert (Hp0 : plainYear
                  (JsDate.getFullYear
                     (gregorian
                        (currentMonth (Sample.showingDate (JsDate.newDate 2025 0 20))))))
    by (intros [_ H]; vm_compute in H; apply H; reflexivity).
  assert (Hp1 : plainYear
                  (JsDate.getFullYear
                     (gregorian
                        (currentMonth (Sample.showingDate (JsDate.newDate 2025 0 20))))
                   + (JsDate.getMonth
                        (gregorian
                           (currentMonth (Sample.showingDate (JsDate.newDate 2025 0 20))))
                      + 1) / 12))
    by (intros [_ H]; vm_compute in H; apply H; reflexivity).
  destruct (X12_grid_offset_follows_on Sample.lib Sample.getDay
              (Sample.showingDate (JsDate.newDate 2025 0 20)) Hday Hp0 Hp1)
    as (_ & _ & H).
  rewrite H. vm_compute. reflexivity.
Defined.

(* ================================================================= *)
(** ** The selection after a month change *)

Section AfterMonthChange.

Variable era : Z -> Prop.
Variable lib : Library.
Hypothesis laws : Lawful era lib.
Variable language : Language.

(** The selected day after one call and the number of buttons of the
    month then displayed. *)
Lemma handleMonthChange_day st increment :
  1 <= currentDay st ->
  era (Nepali.getYear (nepali (currentMonth st))
       + (Nepali.getMonth (nepali (currentMonth st)) + increment) / 12) ->
  let st' := handleMonthChange lib language st increment in
  currentDay st' = Z.min (currentDay st) (gridLength lib language st')
  /\ 1 <= gridLength lib language st'.
Proof.
  intros Hday Hera. cbv zeta.
  pose proof (handleMonthChange_nepali era lib laws language st increment
                Hday Hera) as Hn.
  pose proof (handleMonthChange_gregorian lib language st increment Hday) as Hg.
  pose proof (handleMonthChange_selected lib language st increment) as Hs.
  cbv zeta in Hn, Hg, Hs. destruct Hg as (HgY & HgM & HgD).
  unfold currentDay at 1. rewrite Hs.
  destruct language; cbn [getDate].
  - unfold gridLength. rewrite Hn. cbn [Nepali.getYear Nepali.getMonth Nepali.getDate].
    fold (daysInBsMonth lib
            (Nepali.getYear (nepali (currentMonth st))
             + (Nepali.getMonth (nepali (currentMonth st)) + increment) / 12)
            ((Nepali.getMonth (nepali (currentMonth st)) + increment) mod 12)).
    split; [reflexivity|].
    apply (month_not_empty era lib laws); [exact Hera|].
    pose proof (Z.mod_pos_bound
                  (Nepali.getMonth (nepali (currentMonth st)) + increment) 12).
    lia.
  - rewrite gridLength_en, HgD, HgY, HgM, MakeFullYear_idem.
    split; [reflexivity|].
    pose proof (JsDateFacts.daysInMonth_range
                  (JsDate.MakeFullYear
                     (JsDate.MakeFullYear
                        (JsDate.getFullYear (gregorian (currentMonth st)))
                      + (JsDate.getMonth (gregorian (currentMonth st)) + increment) / 12))
                  ((JsDate.getMonth (gregorian (currentMonth st)) + increment) mod 12)).
    lia.
Qed.

Lemma handleMonthChange_bsMonths st increment :
  1 <= currentDay st ->
  era ((bsMonths st + increment) / 12) ->
  era (Nepali.getYear (nepali (currentMonth st))
       + (Nepali.getMonth (nepali (currentMonth st)) + increment) / 12)
  /\ bsMonths (handleMonthChange lib language st increment)
     = bsMonths st + increment.
Proof.
  intros Hday Hera.
  assert (Hy : (bsMonths st + increment) / 12
               = Nepali.getYear (nepali (currentMonth st))
                 + (Nepali.getMonth (nepali (currentMonth st)) + increment) / 12).
  { unfold bsMonths. Z.div_mod_to_equations. lia. }
  rewrite Hy in Hera. split; [exact Hera|].
  pose proof (handleMonthChange_nepali era lib laws language st increment
                Hday Hera) as Hn.
  cbv zeta in Hn. unfold bsMonths. rewrite Hn.
  cbn [Nepali.getYear Nepali.getMonth]. Z.div_mod_to_equations. lia.
Qed.

Lemma advanceAll_day deltas : forall st,
  1 <= currentDay st ->
  Forall era (yearsVisited (bsMonths st) deltas) ->
  1 <= currentDay (advanceAll lib language st deltas) <= currentDay st.
Proof.
  induction deltas as [| d rest IH]; intros st Hday Hyears.
  - cbn. lia.
  - cbn [yearsVisited] in Hyears.
    inversion Hyears as [| y0 l _ Hrest]; subst.
    assert (He : era ((bsMonths st + d) / 12))
      by (destruct rest; cbn [yearsVisited] in Hrest; inversion Hrest; assumption).
    destruct (handleMonthChange_bsMonths st d Hday He) as [He' Hbs].
    destruct (handleMonthChange_day st d Hday He') as [Hmin Hlen].
    cbv zeta in Hmin, Hlen.
    unfold advanceAll in *. cbn [fold_left].
    rewrite <- Hbs in Hrest.
    assert (Hday' : 1 <= currentDay (handleMonthChange lib language st d)) by lia.
    specialize (IH _ Hday' Hrest). lia.
Qed.

End AfterMonthChange.

(** X13.  After [handleMonthChange] a date is always selected, and its day
    is one of the buttons of the month now displayed, which is drawn as
    selected; when nothing was selected before, it is day 1. *)
Theorem X13_month_change_selects_a_visible_day (era : Z -> Prop) (lib : Library)
    (language : Language) (st : State) (increment : Z) :
  Lawful era lib ->
  1 <= currentDay st ->
  era (Nepali.getYear (nepali (currentMonth st))
       + (Nepali.getMonth (nepali (currentMonth st)) + increment) / 12) ->
  let st' := handleMonthChange lib language st increment in
  selectedDate st' <> None
  /\ 1 <= currentDay st' <= gridLength lib language st'
  /\ highlighted st' (currentDay st') = true
  /\ (selectedDate st = None -> currentDay st' = 1).
Proof.
  intros laws Hday Hera. cbv zeta.
  destruct (handleMonthChange_day era lib laws language st increment Hday Hera)
    as [Hmin Hlen].
  cbv zeta in Hmin, Hlen.
  pose proof (handleMonthChange_selected lib language st increment) as Hs.
  cbv zeta in Hs.
  split; [rewrite Hs; discriminate|]. split; [lia|]. split.
  - unfold highlighted, currentDay. rewrite Hs. apply Z.eqb_refl.
  - intros Hnone. rewrite Hmin. unfold currentDay at 1. rewrite Hnone. lia.
Qed.

Lemma X13_first_month_change_selects_day_one :
  let st := {| selectedDate := None;
               currentMonth :=
                 {| nepali := Nepali.BS 2081 8 17;
                    gregorian := JsDate.newDate 2025 0 1 |};
               isOpen := true |} in
  option_map fieldsOf (selectedDate (handleMonthChange Sample.lib np st 1))
  = Some (2081, 9, 1)
  /\ currentDay (handleMonthChange Sample.lib np st 1) = 1.
Proof.
  cbv zeta. split; [vm_compute; reflexivity|].
  apply (X13_month_change_selects_a_visible_day Sample.era Sample.lib np
           {| selectedDate := None;
              currentMonth :=
                {| nepali := Nepali.BS 2081 8 17;
                   gregorian := JsDate.newDate 2025 0 1 |};
              isOpen := true |} 1 SampleFacts.sample_lawful).
  - cbn. lia.
  - vm_compute; split; discriminate.
  - reflexivity.
Defined.

(** X14.  Over any run of [handleMonthChange] calls the selected day never
    grows: a day cut down by a short month stays cut down when the run
    comes back. *)
Theorem X14_selected_day_never_grows (era : Z -> Prop) (lib : Library)
    (language : Language) (st : State) (deltas : list Z) :
  Lawful era lib ->
  1 <= currentDay st ->
  Forall era (yearsVisited (bsMonths st) deltas) ->
  1 <= currentDay (advanceAll lib language st deltas) <= currentDay st.
Proof.
  intros laws Hday Hyears. apply (advanceAll_day era lib laws); assumption.
Qed.

Lemma X14_january_31_to_february_and_back :
  let st := Sample.showingDate (JsDate.newDate 2025 0 31) in
  1 <= currentDay (advanceAll Sample.lib en st [1; -1]) <= currentDay st
  /\ currentDay st = 31
  /\ currentDay (advanceAll Sample.lib en st [1; -1]) = 28.
Proof.
  cbv zeta.
  assert (Hday : 1 <= currentDay (Sample.showingDate (JsDate.newDate 2025 0 31)))
    by (vm_compute; discriminate).
  assert (Hyears : Forall Sample.era
                     (yearsVisited
                        (bsMonths (Sample.showingDate (JsDate.newDate 2025 0 31)))
                        [1; -1]))
    by (vm_compute;
        repeat (apply Forall_cons; [vm_compute; split; discriminate|]);
        apply Forall_nil).
  split; [|split; vm_compute; reflexivity].
  exact (X14_selected_day_never_grows Sample.era Sample.lib en
           (Sample.showingDate (JsDate.newDate 2025 0 31)) [1; -1]
           SampleFacts.sample_lawful Hday Hyears).
Defined.

(* ================================================================= *)
(** ** Every reachable state *)

(** X15.  In every state the component can reach, the selected date is of
    the class the language asks for ([NepaliDate] for [np], [Date] for
    [en]), so the input shows that date's own fields: [formatDate] never
    converts on this path. *)
Theorem X15_selected_date_has_the_language_s_class (lib : Library)
    (language : Language) (format : string) (st : State) :
  Reachable lib language format st ->
  classMatches language st
  /\ inputValue lib language format st
     = match selectedDate st with
       | None => ""
       | Some (ofNepali d) =>
           formatNepaliDate (Nepali.getYear d) (Nepali.getMonth d)
             (Nepali.getDate d) format
       | Some (ofJs d) => formatGregorianDate d format
       end.
Proof.
  intros Hreach.
  assert (Hclass : classMatches language st).
  { induction Hreach as [defaultValue st Hinit | st day _ _
                        | st increment _ _ | st open _ IH].
    - unfold init in Hinit. unfold classMatches.
      destruct (negb (Js.falsy defaultValue)).
      + destruct language;
          destruct (Nepali.fromString lib (Js.str defaultValue));
          try discriminate Hinit.
        * injection Hinit as <-. exact I.
        * destruct (Nepali.parseDate lib (Js.str defaultValue)) as [g |].
          -- destruct (Nepali.acceptsDate lib g); [|discriminate Hinit].
             injection Hinit as <-. exact I.
          -- destruct (Nepali.fromInvalidDate lib); discriminate Hinit.
      + destruct (Nepali.nowNepali lib); [|discriminate Hinit].
        destruct language.
        * injection Hinit as <-. exact I.
        * destruct (Nepali.acceptsDate lib (Nepali.nowDate lib));
            [|discriminate Hinit].
          injection Hinit as <-. exact I.
    - unfold classMatches, handleDateSelect. cbn [fst selectedDate].
      destruct language; exact I.
    - unfold classMatches.
      rewrite (handleMonthChange_selected lib language st increment).
      destruct language; exact I.
    - exact IH. }
  split; [exact Hclass|].
  unfold classMatches in Hclass. unfold inputValue, formatDate.
  destruct (selectedDate st) as [[d | d] |], language;
    try contradiction; reflexivity.
Qed.

(** In the sample library: the picker starts without a default value, the
    user picks day 5 and then goes one month on. *)
Lemma X15_pick_a_day_then_next_month :
  exists st0 : State,
    init Sample.lib en None = Ready st0
    /\ let st :=
         handleMonthChange Sample.lib en
           (fst (handleDateSelect Sample.lib en "YYYY-MM-DD" st0 5)) 1 in
       classMatches en st
       /\ inputValue Sample.lib en "YYYY-MM-DD" st
          = match selectedDate st with
            | None => ""
            | Some (ofNepali d) =>
                formatNepaliDate (Nepali.getYear d) (Nepali.getMonth d)
                  (Nepali.getDate d) "YYYY-MM-DD"
            | Some (ofJs d) => formatGregorianDate d "YYYY-MM-DD"
            end.
Proof.
  assert (Hinit : { st0 : State | init Sample.lib en None = Ready st0 }).
  { eexists. vm_compute. reflexivity. }
  destruct Hinit as [st0 Hinit].
  exists st0. split; [exact Hinit|]. cbv zeta.
  exact (X15_selected_date_has_the_language_s_class Sample.lib en "YYYY-MM-DD"
           _ (reach_month _ _ _ _ 1
                (reach_select _ _ _ _ 5
                   (reach_init _ _ _ None st0 Hinit)))).
Defined.
